(** * go-weather-forecast: the forecast transformation and the coordinate resolver

    A shallow embedding of [main.go]: [extractWeatherData] (the forecast
    pipeline's transform step), [fetchLatLong], [insertCity] and
    [getLatLong] (the cache-aside location resolver), [getWeather] and the
    handlers registered by [main], together with the parts of Go's [time],
    [fmt], [strconv] and [net/url] packages that these functions call, the
    properties of the specification that concern them and further
    properties read off the code. *)

From Stdlib Require Import ZArith String Ascii List Lia DecimalString.
From stdpp Require Import base list strings gmap.

Local Open Scope string_scope.
Local Open Scope Z_scope.

(** ** Go values shared by the whole program *)

(** The message of a [*time.ParseError]: empty, [": extra text: ..."] or
    [": <field> out of range"]. *)
Inductive parse_message : Type :=
| msg_none
| msg_extra_text (rest : string)
| msg_out_of_range (field : string).

(** Go's [error] interface, restricted to the dynamic values this program
    can hold: errors it builds itself ([errors.New], [fmt.Errorf] with
    [%w]), the [*time.ParseError] of [time.Parse], and errors handed over by
    [encoding/json], [net/http] and [database/sql], which the program never
    inspects.  The nil error is [None : option error]. *)
Inductive error : Type :=
| errors_New (text : string)
| fmt_Errorf_w (prefix : string) (err : error)
| time_ParseError (Layout Value LayoutElem ValueElem : string)
                  (Message : parse_message)
| library_error (pkg text : string).

(** A run-time panic: an index expression out of range, or a nil pointer
    read through. *)
Inductive runtime_error : Type :=
| index_out_of_range (index len : nat)
| nil_pointer_dereference.

(** A Go function call either returns its results or panics. *)
Inductive outcome (A : Type) : Type :=
| Return (a : A)
| Panic (p : runtime_error).
Arguments Return {A} a.
Arguments Panic {A} p.

(** A pointer [*T] that is only read through: [None] is nil. *)
Definition ptr (T : Type) : Type := option T.

(** A [float64]: a finite value [(-1)^sign * mant * 2^exp] with
    [0 <= mant < 2^53], an infinity, or NaN. *)
Inductive float64 : Type :=
| F64 (sign : bool) (mant exp : Z)
| F64_Inf (sign : bool)
| F64_NaN.

(** ** Byte strings *)

Definition byte_at (s : string) (i : nat) : option Z :=
  match String.get i s with
  | Some c => Some (Z.of_N (N_of_ascii c))
  | None => None
  end.

(** [s[n:]] for [n <= len(s)]. *)
Definition string_from (n : nat) (s : string) : string :=
  String.substring n (String.length s - n) s.

(** [s[:n]] for [n <= len(s)]. *)
Definition string_to (n : nat) (s : string) : string :=
  String.substring 0 n s.

Definition decimal (n : Z) : string :=
  NilEmpty.string_of_uint (N.to_uint (Z.to_N n)).

(** ** Package [time]: [Parse] and [Format] *)

Module time.

(** The layout elements that occur in the program's two layouts. *)
Inductive std : Type :=
| stdLongYear     (* "2006" *)
| stdZeroMonth    (* "01" *)
| stdZeroDay      (* "02" *)
| stdHour         (* "15" *)
| stdZeroMinute   (* "04" *)
| stdWeekDay.     (* "Mon" *)

Definition std_string (c : std) : string :=
  match c with
  | stdLongYear => "2006"
  | stdZeroMonth => "01"
  | stdZeroDay => "02"
  | stdHour => "15"
  | stdZeroMinute => "04"
  | stdWeekDay => "Mon"
  end.

(** A layout string as the successive calls of [nextStdChunk] cut it: each
    chunk is a literal prefix followed by one layout element; [trailer] is
    the literal text after the last element. *)
Record layout : Type := Layout {
  chunks : list (string * std);
  trailer : string
}.

Fixpoint layout_chunks_string (cs : list (string * std)) : string :=
  match cs with
  | [] => ""
  | (p, c) :: cs' => p +:+ std_string c +:+ layout_chunks_string cs'
  end.

(** The layout string a [layout] was cut from. *)
Definition layout_string (l : layout) : string :=
  layout_chunks_string (chunks l) +:+ trailer l.

(** [isDigit(s, i)]: [s[i]] exists and is a decimal digit. *)
Definition isDigit (s : string) (i : nat) : bool :=
  match byte_at s i with
  | Some c => (48 <=? c) && (c <=? 57)
  | None => false
  end.

Definition digit_at (s : string) (i : nat) : Z :=
  match byte_at s i with
  | Some c => c - 48
  | None => 0
  end.

(** [getnum(s, fixed)]: a one- or two-digit number, two digits exactly when
    [fixed].  The third component is [true] for [errBad]. *)
Definition getnum (s : string) (fixed : bool) : Z * string * bool :=
  if negb (isDigit s 0) then (0, s, true)
  else if negb (isDigit s 1) then
    if fixed then (0, s, true)
    else (digit_at s 0, string_from 1 s, false)
  else (digit_at s 0 * 10 + digit_at s 1, string_from 2 s, false).

(** [leadingInt(s)]: the leading digits of [s] as a number and the rest of
    [s]; [None] when the number overflows. *)
Fixpoint leadingInt_from (x : Z) (s : string) : option (Z * string) :=
  match s with
  | EmptyString => Some (x, s)
  | String c rest =>
      let d := Z.of_N (N_of_ascii c) in
      if (d <? 48) || (57 <? d) then Some (x, s)
      else if 2 ^ 63 / 10 <? x then None
      else
        let x' := x * 10 + d - 48 in
        if 2 ^ 63 <? x' then None else leadingInt_from x' rest
  end.

Definition leadingInt (s : string) : option (Z * string) :=
  leadingInt_from 0 s.

(** [atoi(s)]: an optionally signed decimal number that is all of [s]. *)
Definition atoi (s : string) : Z * bool :=
  let '(neg, digits) :=
    match s with
    | String "-" rest => (true, rest)
    | String "+" rest => (false, rest)
    | _ => (false, s)
    end in
  match leadingInt digits with
  | Some (q, EmptyString) => (if neg then - q else q, false)
  | _ => (0, true)
  end.

(** [cutspace(s)]: [s] without its leading spaces. *)
Fixpoint cutspace (s : string) : string :=
  match s with
  | String " " rest => cutspace rest
  | _ => s
  end.

(** [skip(value, prefix)]: remove the literal [prefix] from the front of
    [value]; a run of spaces in [prefix] matches any run of spaces.  The
    flag [in_space] is set while the rest of a run of spaces of the prefix
    is dropped (Go's [prefix = cutspace(prefix)]). *)
Fixpoint skip_from (in_space : bool) (value prefix : string) : string * bool :=
  match prefix with
  | EmptyString => (value, false)
  | String " " prefix' =>
      if in_space then skip_from true value prefix'
      else
        match value with
        | String " " _ | EmptyString =>
            skip_from true (cutspace value) prefix'
        | _ => (value, true)
        end
  | String c prefix' =>
      match value with
      | String v value' =>
          if Ascii.eqb v c then skip_from false value' prefix'
          else (value, true)
      | EmptyString => (value, true)
      end
  end.

Definition skip (value prefix : string) : string * bool :=
  skip_from false value prefix.

Definition isLeap (year : Z) : bool :=
  (year mod 4 =? 0) && (negb (year mod 100 =? 0) || (year mod 400 =? 0)).

(** [daysBefore[m]]: the days of a non-leap year before month [m+1]. *)
Definition daysBefore (m : Z) : Z :=
  nth (Z.to_nat m)
      [0; 31; 59; 90; 120; 151; 181; 212; 243; 273; 304; 334; 365] 0.

Definition February : Z := 2.
Definition March : Z := 3.

Definition daysIn (m year : Z) : Z :=
  if (m =? February) && isLeap year then 29
  else daysBefore m - daysBefore (m - 1).

(** A [Time] in UTC on a whole minute, given by [Time.abs()]: the seconds
    elapsed since January 1 of the absolute zero year. *)
Record Time : Type := mkTime { abs : Z }.

Definition absoluteZeroYear : Z := -292277022399.
Definition secondsPerMinute : Z := 60.
Definition secondsPerHour : Z := 60 * secondsPerMinute.
Definition secondsPerDay : Z := 24 * secondsPerHour.
Definition secondsPerWeek : Z := 7 * secondsPerDay.
Definition daysPer400Years : Z := 365 * 400 + 97.
Definition daysPer100Years : Z := 365 * 100 + 24.
Definition daysPer4Years : Z := 365 * 4 + 1.

Definition daysSinceEpoch (year : Z) : Z :=
  let y := year - absoluteZeroYear in
  let n := y / 400 in
  let y := y - 400 * n in
  let d := daysPer400Years * n in
  let n := y / 100 in
  let y := y - 100 * n in
  let d := d + daysPer100Years * n in
  let n := y / 4 in
  let y := y - 4 * n in
  let d := d + daysPer4Years * n in
  d + 365 * y.

(** [Date(year, month, day, hour, min, 0, 0, UTC)] for a month, day, hour
    and minute already in range, which is how [Parse] calls it. *)
Definition Date (year month day hour min : Z) : Time :=
  let d := daysSinceEpoch year in
  let d := d + daysBefore (month - 1) in
  let d := if isLeap year && (March <=? month) then d + 1 else d in
  let d := d + (day - 1) in
  mkTime (d * secondsPerDay + hour * secondsPerHour + min * secondsPerMinute).

(** The zero [Time{}]: January 1, year 1, 00:00 UTC. *)
Definition zeroTime : Time := Date 1 1 1 0 0.

(** The fields [Parse] collects while it walks the layout. *)
Record fields : Type := Fields {
  f_year : Z; f_month : Z; f_day : Z; f_hour : Z; f_min : Z
}.

Definition fields0 : fields := Fields 0 (-1) (-1) 0 0.

Definition shortDayNames : list string :=
  ["Sun"; "Mon"; "Tue"; "Wed"; "Thu"; "Fri"; "Sat"].

(** [match(s1, s2)]: equal up to ASCII letter case, for [len(s1) <= len(s2)]. *)
Fixpoint match_fold (s1 s2 : string) : bool :=
  match s1, s2 with
  | String a s1', String b s2' =>
      let c1 := Z.of_N (N_of_ascii a) in
      let c2 := Z.of_N (N_of_ascii b) in
      (if c1 =? c2 then true
       else
         let l1 := Z.lor c1 32 in
         let l2 := Z.lor c2 32 in
         (l1 =? l2) && (97 <=? l1) && (l1 <=? 122))
      && match_fold s1' s2'
  | EmptyString, _ => true
  | _, EmptyString => false
  end.

(** [lookup(tab, val)]: the first name of [tab] that [val] starts with. *)
Fixpoint lookup (tab : list string) (val : string) : string * bool :=
  match tab with
  | [] => (val, true)
  | v :: tab' =>
      let n := String.length v in
      if (n <=? String.length val)%nat && match_fold (string_to n val) v
      then (string_from n val, false)
      else lookup tab' val
  end.

(** One turn of [parse]'s loop after the literal prefix has been skipped:
    read layout element [c] from [value].  The result is the updated
    fields, the rest of the value, the name of a field out of range (empty
    when none) and the [errBad] flag. *)
Definition parse_std (c : std) (value : string) (f : fields)
  : fields * string * string * bool :=
  match c with
  | stdLongYear =>
      if (String.length value <? 4)%nat || negb (isDigit value 0)
      then (f, value, "", true)
      else
        let '(year, err) := atoi (string_to 4 value) in
        (Fields year (f_month f) (f_day f) (f_hour f) (f_min f),
         string_from 4 value, "", err)
  | stdZeroMonth =>
      let '(month, value', err) := getnum value true in
      (Fields (f_year f) month (f_day f) (f_hour f) (f_min f), value',
       if negb err && ((month <=? 0) || (12 <? month)) then "month" else "",
       err)
  | stdZeroDay =>
      let '(day, value', err) := getnum value true in
      (Fields (f_year f) (f_month f) day (f_hour f) (f_min f), value', "", err)
  | stdHour =>
      let '(hour, value', err) := getnum value false in
      (Fields (f_year f) (f_month f) (f_day f) hour (f_min f), value',
       if (hour <? 0) || (24 <=? hour) then "hour" else "", err)
  | stdZeroMinute =>
      let '(min, value', err) := getnum value true in
      (Fields (f_year f) (f_month f) (f_day f) (f_hour f) min, value',
       if (min <? 0) || (60 <=? min) then "minute" else "", err)
  | stdWeekDay =>
      let '(value', err) := lookup shortDayNames value in
      (f, value', "", err)
  end.

(** The loop of [parse]: one chunk of the layout per turn. *)
Fixpoint parse_loop (alayout avalue : string) (cs : list (string * std))
    (trailer value : string) (f : fields) : fields + error :=
  match cs with
  | [] =>
      let '(value, bad) := skip value trailer in
      if bad then inr (time_ParseError alayout avalue trailer value msg_none)
      else if negb (String.length value =? 0)%nat
      then inr (time_ParseError alayout avalue "" value (msg_extra_text value))
      else inl f
  | (prefix, c) :: cs' =>
      let '(value, bad) := skip value prefix in
      if bad then inr (time_ParseError alayout avalue prefix value msg_none)
      else
        let hold := value in
        let '(f', value', rangeErrString, err) := parse_std c value f in
        if negb (String.eqb rangeErrString "")
        then inr (time_ParseError alayout avalue (std_string c) value'
                    (msg_out_of_range rangeErrString))
        else if err
        then inr (time_ParseError alayout avalue (std_string c) hold msg_none)
        else parse_loop alayout avalue cs' trailer value' f'
  end.

(** [time.Parse(layout, value)] for a layout without zone, year-day or
    seconds elements. *)
Definition Parse (l : layout) (value : string) : Time * option error :=
  match parse_loop (layout_string l) value (chunks l) (trailer l) value
          fields0 with
  | inr e => (zeroTime, Some e)
  | inl f =>
      let month := if f_month f <? 0 then 1 else f_month f in
      let day := if f_day f <? 0 then 1 else f_day f in
      if (day <? 1) || (daysIn month (f_year f) <? day)
      then (zeroTime,
            Some (time_ParseError (layout_string l) value "" ""
                    (msg_out_of_range "day")))
      else (Date (f_year f) month day (f_hour f) (f_min f), None)
  end.

(** [absWeekday(abs)]: Sunday is 0; day 0 of the absolute era is a Monday. *)
Definition Monday : Z := 1.

Definition absWeekday (t : Time) : Z :=
  ((abs t + Monday * secondsPerDay) mod secondsPerWeek) / secondsPerDay.

(** [absClock(abs)]: the hour and the minute within the day. *)
Definition absClock (t : Time) : Z * Z :=
  let sec := abs t mod secondsPerDay in
  let hour := sec / secondsPerHour in
  let sec := sec - hour * secondsPerHour in
  (hour, sec / secondsPerMinute).

(** [absDate(abs, true)]: the year, the month and the day of the month. *)
Definition absDate (t : Time) : Z * Z * Z :=
  let d := abs t / secondsPerDay in
  let n := d / daysPer400Years in
  let y := 400 * n in
  let d := d - daysPer400Years * n in
  let n := d / daysPer100Years in
  let n := n - Z.shiftr n 2 in
  let y := y + 100 * n in
  let d := d - daysPer100Years * n in
  let n := d / daysPer4Years in
  let y := y + 4 * n in
  let d := d - daysPer4Years * n in
  let n := d / 365 in
  let n := n - Z.shiftr n 2 in
  let y := y + n in
  let d := d - 365 * n in
  let year := y + absoluteZeroYear in
  let leap := isLeap year in
  if leap && (d =? 31 + 29 - 1) then (year, February, 29)
  else
    let day := if leap && (31 + 29 - 1 <? d) then d - 1 else d in
    let month := day / 31 in
    let end_ := daysBefore (month + 1) in
    let '(month, begin) :=
      if end_ <=? day then (month + 1, end_) else (month, daysBefore month) in
    (year, month + 1, day - begin + 1).

Definition longDayNames : list string :=
  ["Sunday"; "Monday"; "Tuesday"; "Wednesday"; "Thursday"; "Friday";
   "Saturday"].

Fixpoint zeros (n : nat) : string :=
  match n with
  | O => ""
  | S n' => String "0" (zeros n')
  end.

(** [appendInt(b, x, width)]: [x] in decimal, zero-padded to [width]. *)
Definition appendInt (b : string) (x : Z) (width : nat) : string :=
  let digits := decimal (Z.abs x) in
  b +:+ (if x <? 0 then "-" else "")
    +:+ zeros (width - String.length digits) +:+ digits.

(** One turn of [Format]'s loop: append layout element [c] of [t]. *)
Definition format_std (t : Time) (c : std) (b : string) : string :=
  let '(year, month, day) := absDate t in
  let '(hour, min) := absClock t in
  match c with
  | stdLongYear => appendInt b year 4
  | stdZeroMonth => appendInt b month 2
  | stdZeroDay => appendInt b day 2
  | stdHour => appendInt b hour 2
  | stdZeroMinute => appendInt b min 2
  | stdWeekDay =>
      b +:+ string_to 3 (nth (Z.to_nat (absWeekday t)) longDayNames "")
  end.

Fixpoint format_loop (t : Time) (cs : list (string * std)) (b : string)
  : string :=
  match cs with
  | [] => b
  | (prefix, c) :: cs' => format_loop t cs' (format_std t c (b +:+ prefix))
  end.

(** [t.Format(layout)]. *)
Definition Format (t : Time) (l : layout) : string :=
  format_loop t (chunks l) "" +:+ trailer l.

End time.

(** ** Package [strconv]: decimal text of a [float64] and back *)

Module strconv.

(** The integer nearest to [num / den], halves to the even neighbour. *)
Definition round_half_even (num den : Z) : Z :=
  let q := num / den in
  let r := num mod den in
  if 2 * r <? den then q
  else if den <? 2 * r then q + 1
  else if Z.even q then q else q + 1.

(** [FormatFloat(x, 'f', prec, 64)]: [prec] digits after the point, the
    exact binary value rounded to the nearest such decimal, halves to
    even. *)
Definition FormatFloat_f (x : float64) (prec : nat) : string :=
  match x with
  | F64_NaN => "NaN"
  | F64_Inf sign => if sign then "-Inf" else "+Inf"
  | F64 sign mant exp =>
      let unit := 10 ^ Z.of_nat prec in
      let scaled :=
        if 0 <=? exp then mant * 2 ^ exp * unit
        else round_half_even (mant * unit) (2 ^ (- exp)) in
      let frac := decimal (scaled mod unit) in
      (if sign then "-" else "") +:+ decimal (scaled / unit)
        +:+ match prec with
            | O => ""
            | _ => "." +:+ time.zeros (prec - String.length frac) +:+ frac
            end
  end.

(** The [float64] nearest to the decimal [m * 10^k] with [0 <= m], halves
    to the even mantissa: what [ParseFloat] (and so [encoding/json]) stores
    for a number literal.  An overflow gives the infinity. *)
Definition float64_of_decimal (m k : Z) : float64 :=
  if m <=? 0 then F64 false 0 (-1074)
  else
    let num := if 0 <=? k then m * 10 ^ k else m in
    let den := if 0 <=? k then 1 else 10 ^ (- k) in
    let scale e :=
      if 0 <=? e then (num, den * 2 ^ e) else (num * 2 ^ (- e), den) in
    let e := Z.log2 num - Z.log2 den - 52 in
    let e :=
      if (let '(n, d) := scale e in 2 ^ 52 <=? n / d) then e else e - 1 in
    let e := Z.max e (-1074) in
    let '(n, d) := scale e in
    let q := round_half_even n d in
    let '(q, e) := if q =? 2 ^ 53 then (2 ^ 52, e + 1) else (q, e) in
    if 971 <? e then F64_Inf false else F64 false q e.

End strconv.

(** ** Package [fmt] *)

Module fmt.

(** The two bytes of U+00B0 in UTF-8, then [C]. *)
Definition degC : string :=
  String (ascii_of_nat 194) (String (ascii_of_nat 176) "C").

(** [fmt.Sprintf("%.1f°C", x)]. *)
Definition Sprintf_1f_degC (x : float64) : string :=
  strconv.FormatFloat_f x 1 +:+ degC.

End fmt.

(** ** Package [net/url] *)

Module url.

Definition upperhex (n : Z) : ascii :=
  match String.get (Z.to_nat n) "0123456789ABCDEF" with
  | Some c => c
  | None => "0"%char
  end.

(** [shouldEscape(c, encodeQueryComponent)]: everything but the unreserved
    characters (letters, digits, [-], [_], [.], [~]). *)
Definition shouldEscape (c : Z) : bool :=
  if ((97 <=? c) && (c <=? 122)) || ((65 <=? c) && (c <=? 90))
     || ((48 <=? c) && (c <=? 57))
  then false
  else if (c =? 45) || (c =? 95) || (c =? 46) || (c =? 126) then false
  else true.

(** [url.QueryEscape(s)]: a space becomes [+], an escaped byte [%XX]. *)
Fixpoint QueryEscape (s : string) : string :=
  match s with
  | EmptyString => ""
  | String a rest =>
      let c := Z.of_N (N_of_ascii a) in
      if shouldEscape c then
        if c =? 32 then String "+" (QueryEscape rest)
        else String "%" (String (upperhex (Z.shiftr c 4))
                           (String (upperhex (Z.land c 15)) (QueryEscape rest)))
      else String a (QueryEscape rest)
  end.

(** The bytes [QueryEscape] can produce: the unreserved characters, [+]
    and [%]. *)
Definition escaped_byte (a : ascii) : bool :=
  let c := Z.of_N (N_of_ascii a) in
  negb (shouldEscape c) || (c =? 43) || (c =? 37).

Definition unhex (a : ascii) : Z :=
  let c := Z.of_N (N_of_ascii a) in
  if (48 <=? c) && (c <=? 57) then c - 48
  else if (97 <=? c) && (c <=? 102) then c - 97 + 10
  else if (65 <=? c) && (c <=? 70) then c - 65 + 10
  else 0.

(** Reading an escaped query component back: [+] is a space and [%XY] the
    byte with the hexadecimal digits [X] and [Y]. *)
Fixpoint unescape (s : string) : string :=
  match s with
  | EmptyString => ""
  | String "%" (String x (String y rest)) =>
      String (ascii_of_N (Z.to_N (Z.shiftl (unhex x) 4 + unhex y)))
        (unescape rest)
  | String "+" rest => String " " (unescape rest)
  | String a rest => String a (unescape rest)
  end.

End url.

(** ** The program's types *)

Record LatLong : Type := {
  Latitude : float64;
  Longitude : float64
}.

Record GeoResponse : Type := {
  (* A list of results; we only need the first one *)
  Results : list LatLong
}.

(** The anonymous struct of the field [Hourly]. *)
Record HourlyData : Type := {
  Time : list string;
  Temperature2m : list float64
}.

Record WeatherResponse : Type := {
  wr_Latitude : float64;
  wr_Longitude : float64;
  Timezone : string;
  Hourly : HourlyData
}.

Record Forecast : Type := {
  Date : string;
  Temperature : string
}.

Record WeatherDisplay : Type := {
  City : string;
  Forecasts : list Forecast
}.

(** The zero value [WeatherDisplay{}], returned next to every error. *)
Definition WeatherDisplay_zero : WeatherDisplay :=
  {| City := ""; Forecasts := [] |}.

(** ** The forecast pipeline: [extractWeatherData] *)

(** The layout ["2006-01-02T15:04"] of the upstream time strings. *)
Definition layout_hourly : time.layout :=
  time.Layout
    [("", time.stdLongYear); ("-", time.stdZeroMonth); ("-", time.stdZeroDay);
     ("T", time.stdHour); (":", time.stdZeroMinute)] "".

(** The layout ["Mon 15:04"] of the labels. *)
Definition layout_label : time.layout :=
  time.Layout
    [("", time.stdWeekDay); (" ", time.stdHour); (":", time.stdZeroMinute)] "".

(** The time string [t] is accepted by [time.Parse("2006-01-02T15:04", t)]. *)
Definition parses (t : string) : bool :=
  match snd (time.Parse layout_hourly t) with
  | None => true
  | Some _ => false
  end.

(** The entry the loop body builds from a time string that parses and a
    temperature. *)
Definition forecast_of (t : string) (temperature : float64) : Forecast :=
  {| Date := time.Format (fst (time.Parse layout_hourly t)) layout_label;
     Temperature := fmt.Sprintf_1f_degC temperature |}.

(** The [for i, t := range weatherResponse.Hourly.Time] loop, entered at
    index [i] with the times [ts] still to visit and the slice [forecasts]
    built so far, followed by the closing [return]. *)
Fixpoint extractWeatherData_range (city : string) (temperature2m : list float64)
    (i : nat) (ts : list string) (forecasts : list Forecast)
  : outcome (WeatherDisplay * option error) :=
  match ts with
  | [] => Return ({| City := city; Forecasts := forecasts |}, None)
  | t :: ts' =>
      let '(date, err) := time.Parse layout_hourly t in
      match err with
      | Some err => Return (WeatherDisplay_zero, Some err)
      | None =>
          match temperature2m !! i with
          | None => Panic (index_out_of_range i (length temperature2m))
          | Some temperature =>
              let forecast :=
                {| Date := time.Format date layout_label;
                   Temperature := fmt.Sprintf_1f_degC temperature |} in
              extractWeatherData_range city temperature2m (S i) ts'
                (forecasts ++ [forecast])
          end
      end
  end.

Section ForecastPipeline.

(** [json.Unmarshal([]byte(raw), &weatherResponse)] on a zero
    [weatherResponse]: the value the variable holds afterwards and the
    error. *)
Variable json_Unmarshal : string -> WeatherResponse * option error.

Definition extractWeatherData (city rawWeather : string)
  : outcome (WeatherDisplay * option error) :=
  let '(weatherResponse, err) := json_Unmarshal rawWeather in
  match err with
  | Some err =>
      Return (WeatherDisplay_zero,
              Some (fmt_Errorf_w "error decoding weather response: " err))
  | None =>
      extractWeatherData_range city
        (Temperature2m (Hourly weatherResponse)) 0
        (Time (Hourly weatherResponse)) []
  end.

End ForecastPipeline.

(** ** The outside world: store, network, response bodies *)

(** A [*sqlx.DB] handle, as [sqlx.MustConnect(driverName, dataSourceName)]
    opens it. *)
Record sqlx_DB : Type := {
  driverName : string;
  dataSourceName : string
}.

(** The arguments the program binds to the placeholders of a query. *)
Inductive sql_arg : Type :=
| arg_string (s : string)
| arg_float64 (x : float64).

(** The [Body] of an HTTP response: a stream the world knows by number. *)
Inductive io_ReadCloser : Type :=
| ReadCloser (id : nat).

Record http_Response : Type := {
  Body : io_ReadCloser
}.

(** The calls by which the program reaches the outside world, indexed by
    the type of what comes back:
    - [db.Get(&latLong, query, args...)]: the value [latLong] holds
      afterwards and the error;
    - [db.Exec(query, args...)]: the error (the [sql.Result] is dropped);
    - [http.Get(url)]: the response and the error;
    - [json.NewDecoder(body).Decode(&response)] on a zero [GeoResponse]:
      the value [response] holds afterwards and the error;
    - [body.Close()]. *)
Inductive call : Type -> Type :=
| db_Get (db : sqlx_DB) (query : string) (args : list sql_arg)
    : call (ptr LatLong * option error)
| db_Exec (db : sqlx_DB) (query : string) (args : list sql_arg)
    : call (option error)
| http_Get (endpoint : string) : call (http_Response * option error)
| json_Decode (body : io_ReadCloser) : call (GeoResponse * option error)
| Body_Close (body : io_ReadCloser) : call (option error).

(** A Go function body that talks to the outside world: it returns,
    panics, or makes a call and goes on with the answer. *)
Inductive io (A : Type) : Type :=
| io_return (a : A)
| io_panic (p : runtime_error)
| io_call {X : Type} (c : call X) (k : X -> io A).
Arguments io_return {A} a.
Arguments io_panic {A} p.
Arguments io_call {A X} c k.

Fixpoint io_bind {A B : Type} (m : io A) (f : A -> io B) : io B :=
  match m with
  | io_return a => f a
  | io_panic p => io_panic p
  | io_call c k => io_call c (fun x => io_bind (k x) f)
  end.

Definition perform {X : Type} (c : call X) : io X := io_call c io_return.

(** [defer cleanup] placed before [m]: [cleanup] runs when [m] is over,
    also when [m] panics, and what it returns is dropped. *)
Fixpoint io_defer {A C : Type} (cleanup : io C) (m : io A) : io A :=
  match m with
  | io_return a => io_bind cleanup (fun _ => io_return a)
  | io_panic p => io_bind cleanup (fun _ => io_panic p)
  | io_call c k => io_call c (fun x => io_defer cleanup (k x))
  end.

Declare Scope io_scope.
Delimit Scope io_scope with io.
Notation "'let*' x ':=' m 'in' f" := (io_bind m (fun x => f))
  (at level 10, x pattern, m at level 100, f at level 200) : io_scope.

(** One observed call with its answer. *)
Inductive event : Type :=
| Event {X : Type} (c : call X) (x : X).

(** The external geocoding lookup was invoked. *)
Definition is_geocoder_call (e : event) : bool :=
  match e with
  | Event (http_Get _) _ => true
  | _ => false
  end.

(** What the geocoder answered, when the event is a call of it. *)
Definition geocoder_answer (e : event)
  : option (http_Response * option error) :=
  match e with
  | Event c x =>
      match c in call X return X -> option (http_Response * option error) with
      | http_Get _ => fun x => Some x
      | _ => fun _ => None
      end x
  end.

(** The body a successful [http.Get] opened. *)
Definition opened_body (e : event) : option io_ReadCloser :=
  match e with
  | Event c x =>
      match c in call X return X -> option io_ReadCloser with
      | http_Get _ =>
          fun x => match snd x with
                   | None => Some (Body (fst x))
                   | Some _ => None
                   end
      | _ => fun _ => None
      end x
  end.

(** The body a call of [Close] closed. *)
Definition closed_body (e : event) : option io_ReadCloser :=
  match e with
  | Event (Body_Close body) _ => Some body
  | _ => None
  end.

(** The persistent store was written. *)
Definition is_store_write (e : event) : bool :=
  match e with
  | Event (db_Exec _ _ _) _ => true
  | _ => false
  end.

Section Run.

(** Any world: a state and the answer it gives to each call. *)
Context {World : Type}.
Variable handle : forall X : Type, call X -> World -> X * World.

(** Run a function body in a world: the calls made, in order, with their
    answers; how the body ended; the world left behind. *)
Fixpoint run {A : Type} (m : io A) (w : World)
  : list event * outcome A * World :=
  match m with
  | io_return a => ([], Return a, w)
  | io_panic p => ([], Panic p, w)
  | io_call c k =>
      let '(x, w1) := handle _ c w in
      let '(trace, r, w2) := run (k x) w1 in
      (Event c x :: trace, r, w2)
  end.

End Run.

(** ** The location resolver: [fetchLatLong], [insertCity], [getLatLong] *)

Local Open Scope io_scope.

Definition geo_endpoint (city : string) : string :=
  "https://geocoding-api.open-meteo.com/v1/search?name="
    +:+ url.QueryEscape city +:+ "&count=1&language=en&format=json".

Definition fetchLatLong (city : string) : io (ptr LatLong * option error) :=
  let endpoint := geo_endpoint city in
  let* (resp, err) := perform (http_Get endpoint) in
  match err with
  | Some err =>
      io_return
        (None, Some (fmt_Errorf_w "error making request to Geo API: " err))
  | None =>
      io_defer (perform (Body_Close (Body resp)))
        (let* (response, err) := perform (json_Decode (Body resp)) in
         match err with
         | Some err =>
             io_return
               (None, Some (fmt_Errorf_w "error decoding response: " err))
         | None =>
             (* response.Results is a list of results, but we only need the
                first one *)
             if (length (Results response) <? 1)%nat
             then io_return (None, Some (errors_New "no results found"))
             else
               match Results response !! 0%nat with
               | Some first => io_return (Some first, None)
               | None =>
                   io_panic (index_out_of_range 0 (length (Results response)))
               end
         end)
  end.

Definition insertCity (db : sqlx_DB) (name : string) (latLong : LatLong)
  : io (option error) :=
  perform (db_Exec db "INSERT INTO cities (name, lat, long) VALUES ($1, $2, $3)"
             [arg_string name; arg_float64 (Latitude latLong);
              arg_float64 (Longitude latLong)]).

Definition getLatLong (db : sqlx_DB) (name : string)
  : io (ptr LatLong * option error) :=
  let* (latLong, err) :=
    perform (db_Get db "SELECT lat, long FROM cities WHERE name = $1"
               [arg_string name]) in
  match err with
  | None => io_return (latLong, None)
  | Some _ =>
      let* (latLong, err) := fetchLatLong name in
      match err with
      | Some err => io_return (None, Some err)
      | None =>
          match latLong with
          | None => io_panic nil_pointer_dereference
          | Some coordinate =>
              let* err := insertCity db name coordinate in
              match err with
              | Some err => io_return (None, Some err)
              | None => io_return (latLong, None)
              end
          end
      end
  end.

Local Close Scope io_scope.

(** The two store calls of the resolver, as [getLatLong] and [insertCity]
    issue them. *)
Definition store_lookup (db : sqlx_DB) (name : string)
  : call (ptr LatLong * option error) :=
  db_Get db "SELECT lat, long FROM cities WHERE name = $1" [arg_string name].

Definition store_insert (db : sqlx_DB) (name : string) (latLong : LatLong)
  : call (option error) :=
  db_Exec db "INSERT INTO cities (name, lat, long) VALUES ($1, $2, $3)"
    [arg_string name; arg_float64 (Latitude latLong);
     arg_float64 (Longitude latLong)].

(** ** Test doubles for the collaborators *)

Module double.

(** A JSON decoder for forecast bodies that knows a fixed set of bodies. *)
Definition json_Unmarshal (known : gmap string WeatherResponse) (raw : string)
  : WeatherResponse * option error :=
  match known !! raw with
  | Some weatherResponse => (weatherResponse, None)
  | None =>
      ({| wr_Latitude := F64 false 0 0; wr_Longitude := F64 false 0 0;
          Timezone := ""; Hourly := {| Time := []; Temperature2m := [] |} |},
       Some (library_error "encoding/json" "invalid character"))
  end.

(** A forecast body without coordinates or time zone. *)
Definition body (times : list string) (temperatures : list float64)
  : WeatherResponse :=
  {| wr_Latitude := F64 false 0 0; wr_Longitude := F64 false 0 0;
     Timezone := "";
     Hourly := {| Time := times; Temperature2m := temperatures |} |}.

(** A world with a table [cities], switches that make the store fail, a
    geocoder that answers per endpoint, and the response bodies now open. *)
Record World : Type := {
  cities : gmap string LatLong;
  store_reads : bool;
  store_writes : bool;
  geocoder : gmap string GeoResponse;
  bodies : gmap nat GeoResponse;
  next_body : nat
}.

Definition sql_ErrNoRows : error :=
  library_error "database/sql" "sql: no rows in result set".
Definition driver_ErrBadConn : error :=
  library_error "database/sql/driver" "driver: bad connection".

Definition handle (X : Type) (c : call X) (w : World) : X * World :=
  match c in call X return X * World with
  | db_Get _ _ args =>
      match args with
      | [arg_string name] =>
          if store_reads w then
            match cities w !! name with
            | Some coordinate => ((Some coordinate, None), w)
            | None => ((None, Some sql_ErrNoRows), w)
            end
          else ((None, Some driver_ErrBadConn), w)
      | _ => ((None, Some (library_error "database/sql" "wrong arguments")), w)
      end
  | db_Exec _ _ args =>
      match args with
      | [arg_string name; arg_float64 lat; arg_float64 long] =>
          if store_writes w then
            (None,
             {| cities :=
                  <[name := {| Latitude := lat; Longitude := long |}]> (cities w);
                store_reads := store_reads w; store_writes := store_writes w;
                geocoder := geocoder w; bodies := bodies w;
                next_body := next_body w |})
          else (Some driver_ErrBadConn, w)
      | _ => (Some (library_error "database/sql" "wrong arguments"), w)
      end
  | http_Get endpoint =>
      match geocoder w !! endpoint with
      | Some response =>
          (({| Body := ReadCloser (next_body w) |}, None),
           {| cities := cities w;
              store_reads := store_reads w; store_writes := store_writes w;
              geocoder := geocoder w;
              bodies := <[next_body w := response]> (bodies w);
              next_body := S (next_body w) |})
      | None =>
          (({| Body := ReadCloser 0 |},
            Some (library_error "net/http" "no such host")), w)
      end
  | json_Decode (ReadCloser id) =>
      match bodies w !! id with
      | Some response => ((response, None), w)
      | None =>
          (({| Results := [] |}, Some (library_error "encoding/json" "EOF")), w)
      end
  | Body_Close (ReadCloser id) =>
      (None,
       {| cities := cities w;
          store_reads := store_reads w; store_writes := store_writes w;
          geocoder := geocoder w; bodies := delete id (bodies w);
          next_body := next_body w |})
  end.

Definition db : sqlx_DB :=
  {| driverName := "postgres";
     dataSourceName := "postgres://localhost/weather" |}.

Definition paris : LatLong :=
  {| Latitude := strconv.float64_of_decimal 488566 (-4);
     Longitude := strconv.float64_of_decimal 23522 (-4) |}.

(** The store is empty and the geocoder knows Paris and nothing about
    Atlantis. *)
Definition fresh (reads writes : bool) : World :=
  {| cities := ∅; store_reads := reads; store_writes := writes;
     geocoder := {[ geo_endpoint "Paris" := {| Results := [paris] |};
                    geo_endpoint "Atlantis" := {| Results := [] |} ]};
     bodies := ∅; next_body := 0 |}.

(** The store already holds Paris. *)
Definition warm : World :=
  {| cities := {[ "Paris" := paris ]}; store_reads := true;
     store_writes := true; geocoder := ∅; bodies := ∅; next_body := 0 |}.

(** The same world behind a geocoder whose bodies are not JSON. *)
Definition handle_garbled (X : Type) (c : call X) (w : World) : X * World :=
  match c in call X return X * World with
  | json_Decode _ =>
      (({| Results := [] |},
        Some (library_error "encoding/json" "invalid character")), w)
  | db_Get db query args => handle _ (db_Get db query args) w
  | db_Exec db query args => handle _ (db_Exec db query args) w
  | http_Get endpoint => handle _ (http_Get endpoint) w
  | Body_Close body => handle _ (Body_Close body) w
  end.

End double.

(** ** The forecast request and the HTTP handlers: [getWeather], [main] *)

(** The object [gin.H{"error": err.Error()}]: its one message is kept as
    the error whose text it is. *)
Inductive gin_H : Type :=
| H_error (err : error).

Definition StatusOK : Z := 200.
Definition StatusInternalServerError : Z := 500.

(** The calls of the handlers: those of the resolver, and
    - [io.ReadAll(body)]: the bytes read and the error;
    - [fmt.Println(line)] (what it returns is dropped);
    - [c.Query(key)] on the request;
    - [c.JSON(code, obj)] and [c.HTML(code, name, obj)] on the response,
      [obj] being nil or a [WeatherDisplay]. *)
Inductive web_call : Type -> Type :=
| resolver {X : Type} (c : call X) : web_call X
| io_ReadAll (body : io_ReadCloser) : web_call (string * option error)
| fmt_Println (line : string) : web_call unit
| gin_Query (key : string) : web_call string
| gin_JSON (code : Z) (obj : gin_H) : web_call unit
| gin_HTML (code : Z) (name : string) (obj : option WeatherDisplay)
    : web_call unit.

(** A function body over these calls. *)
Inductive web (A : Type) : Type :=
| web_return (a : A)
| web_panic (p : runtime_error)
| web_do {X : Type} (c : web_call X) (k : X -> web A).
Arguments web_return {A} a.
Arguments web_panic {A} p.
Arguments web_do {A X} c k.

Fixpoint web_bind {A B : Type} (m : web A) (f : A -> web B) : web B :=
  match m with
  | web_return a => f a
  | web_panic p => web_panic p
  | web_do c k => web_do c (fun x => web_bind (k x) f)
  end.

Definition web_perform {X : Type} (c : web_call X) : web X :=
  web_do c web_return.

(** [defer cleanup] placed before [m], as [io_defer]. *)
Fixpoint web_defer {A C : Type} (cleanup : web C) (m : web A) : web A :=
  match m with
  | web_return a => web_bind cleanup (fun _ => web_return a)
  | web_panic p => web_bind cleanup (fun _ => web_panic p)
  | web_do c k => web_do c (fun x => web_defer cleanup (k x))
  end.

(** A function of the resolver, called from a handler. *)
Fixpoint lift {A : Type} (m : io A) : web A :=
  match m with
  | io_return a => web_return a
  | io_panic p => web_panic p
  | io_call c k => web_do (resolver c) (fun x => lift (k x))
  end.

Declare Scope web_scope.
Delimit Scope web_scope with web.
Notation "'let*' x ':=' m 'in' f" := (web_bind m (fun x => f))
  (at level 10, x pattern, m at level 100, f at level 200) : web_scope.

Inductive web_event : Type :=
| WebEvent {X : Type} (c : web_call X) (x : X).

Definition lift_event (e : event) : web_event :=
  match e with
  | Event c x => WebEvent (resolver c) x
  end.

(** A response was written: [c.JSON] or [c.HTML]. *)
Definition is_response (e : web_event) : bool :=
  match e with
  | WebEvent (gin_JSON _ _) _ => true
  | WebEvent (gin_HTML _ _ _) _ => true
  | _ => false
  end.

(** An HTTP request left the process. *)
Definition is_request (e : web_event) : bool :=
  match e with
  | WebEvent (resolver (http_Get _)) _ => true
  | _ => false
  end.

Definition web_opened_body (e : web_event) : option io_ReadCloser :=
  match e with
  | WebEvent c x =>
      match c in web_call X return X -> option io_ReadCloser with
      | resolver c' => fun x => opened_body (Event c' x)
      | _ => fun _ => None
      end x
  end.

Definition web_closed_body (e : web_event) : option io_ReadCloser :=
  match e with
  | WebEvent (resolver (Body_Close body)) _ => Some body
  | _ => None
  end.

Section WebRun.

Context {World : Type}.
Variable handle : forall X : Type, web_call X -> World -> X * World.

Fixpoint web_run {A : Type} (m : web A) (w : World)
  : list web_event * outcome A * World :=
  match m with
  | web_return a => ([], Return a, w)
  | web_panic p => ([], Panic p, w)
  | web_do c k =>
      let '(x, w1) := handle _ c w in
      let '(trace, r, w2) := web_run (k x) w1 in
      (WebEvent c x :: trace, r, w2)
  end.

(** The answers of the same world to the calls of the resolver. *)
Definition resolver_handle (X : Type) (c : call X) (w : World) : X * World :=
  handle X (resolver c) w.

End WebRun.

Local Open Scope web_scope.

Definition weather_endpoint (latLong : LatLong) : string :=
  "https://api.open-meteo.com/v1/forecast?latitude="
    +:+ strconv.FormatFloat_f (Latitude latLong) 6
    +:+ "&longitude=" +:+ strconv.FormatFloat_f (Longitude latLong) 6
    +:+ "&hourly=temperature_2m".

Definition getWeather (latLong : LatLong) : web (string * option error) :=
  let endpoint := weather_endpoint latLong in
  let* (resp, err) := web_perform (resolver (http_Get endpoint)) in
  match err with
  | Some err =>
      web_return
        ("", Some (fmt_Errorf_w "error making request to Weather API: " err))
  | None =>
      web_defer (web_perform (resolver (Body_Close (Body resp))))
        (let* (body, err) := web_perform (io_ReadAll (Body resp)) in
         match err with
         | Some err =>
             web_return
               ("", Some (fmt_Errorf_w "error reading response body: " err))
         | None => web_return (body, None)
         end)
  end.

Section Handlers.

Variable json_Unmarshal : string -> WeatherResponse * option error.

(** The handler [main] registers for [GET /weather]. *)
Definition GET_weather (db : sqlx_DB) : web unit :=
  let* city := web_perform (gin_Query "city") in
  let* (latlong, err) := lift (getLatLong db city) in
  match err with
  | Some err =>
      web_perform (gin_JSON StatusInternalServerError (H_error err))
  | None =>
      match latlong with
      | None => web_panic nil_pointer_dereference
      | Some coordinate =>
          let* (weather, err) := getWeather coordinate in
          match err with
          | Some err =>
              web_perform (gin_JSON StatusInternalServerError (H_error err))
          | None =>
              (* print out weather *)
              let* _ := web_perform (fmt_Println weather) in
              match extractWeatherData json_Unmarshal city weather with
              | Panic p => web_panic p
              | Return (weatherDisplay, err) =>
                  match err with
                  | Some err =>
                      web_perform
                        (gin_JSON StatusInternalServerError (H_error err))
                  | None =>
                      web_perform
                        (gin_HTML StatusOK "weather.html" (Some weatherDisplay))
                  end
              end
          end
      end
  end.

End Handlers.

(** The handler [main] registers for [GET /]. *)
Definition GET_index : web unit :=
  web_perform (gin_HTML StatusOK "index.html" None).

Local Close Scope web_scope.

(** ** Test doubles for the handlers *)

Module double_web.

(** The world of the resolver's double, the city of the request, the
    forecast service (endpoint and body text), the text bodies now open,
    the lines printed and the responses written; two switches make the
    store answer its lookup with nothing at all, and make the reading of a
    body break off. *)
Record World : Type := {
  base : double.World;
  city : string;
  forecast : list (string * string);
  texts : gmap nat string;
  printed : list string;
  written : list web_event;
  lookup_answers_nothing : bool;
  reading_breaks : bool
}.

Definition with_base (w : World) (b : double.World) : World :=
  {| base := b; city := city w; forecast := forecast w; texts := texts w;
     printed := printed w; written := written w;
     lookup_answers_nothing := lookup_answers_nothing w;
     reading_breaks := reading_breaks w |}.

Fixpoint assoc (key : string) (l : list (string * string)) : option string :=
  match l with
  | [] => None
  | (k, v) :: l' => if String.eqb k key then Some v else assoc key l'
  end.

Definition respond (w : World) (e : web_event) : World :=
  {| base := base w; city := city w; forecast := forecast w;
     texts := texts w; printed := printed w;
     written := (written w ++ [e])%list;
     lookup_answers_nothing := lookup_answers_nothing w;
     reading_breaks := reading_breaks w |}.

Definition handle (X : Type) (c : web_call X) (w : World) : X * World :=
  match c in web_call X return X * World with
  | resolver c' =>
      match c' in call X return X * World with
      | http_Get endpoint =>
          match assoc endpoint (forecast w) with
          | Some text =>
              let id := double.next_body (base w) in
              (({| Body := ReadCloser id |}, None),
               {| base :=
                    {| double.cities := double.cities (base w);
                       double.store_reads := double.store_reads (base w);
                       double.store_writes := double.store_writes (base w);
                       double.geocoder := double.geocoder (base w);
                       double.bodies := double.bodies (base w);
                       double.next_body := S id |};
                  city := city w; forecast := forecast w;
                  texts := <[id := text]> (texts w);
                  printed := printed w; written := written w;
                  lookup_answers_nothing := lookup_answers_nothing w;
                  reading_breaks := reading_breaks w |})
          | None =>
              let '(x, b) := double.handle _ (http_Get endpoint) (base w) in
              (x, with_base w b)
          end
      | db_Get db query args =>
          if lookup_answers_nothing w then ((None, None), w)
          else
            let '(x, b) := double.handle _ (db_Get db query args) (base w) in
            (x, with_base w b)
      | db_Exec db query args =>
          let '(x, b) := double.handle _ (db_Exec db query args) (base w) in
          (x, with_base w b)
      | json_Decode body =>
          let '(x, b) := double.handle _ (json_Decode body) (base w) in
          (x, with_base w b)
      | Body_Close body =>
          let '(x, b) := double.handle _ (Body_Close body) (base w) in
          (x, with_base w b)
      end
  | io_ReadAll (ReadCloser id) =>
      match texts w !! id with
      | Some text =>
          if reading_breaks w
          then ((string_to 2 text,
                 Some (library_error "io" "unexpected EOF")), w)
          else ((text, None), w)
      | None => (("", Some (library_error "io" "unexpected EOF")), w)
      end
  | fmt_Println line =>
      (tt,
       {| base := base w; city := city w; forecast := forecast w;
          texts := texts w; printed := (printed w ++ [line])%list;
          written := written w;
          lookup_answers_nothing := lookup_answers_nothing w;
          reading_breaks := reading_breaks w |})
  | gin_Query key =>
      (if String.eqb key "city" then city w else "", w)
  | gin_JSON code obj => (tt, respond w (WebEvent (gin_JSON code obj) tt))
  | gin_HTML code name obj =>
      (tt, respond w (WebEvent (gin_HTML code name obj) tt))
  end.

(** A request for Paris, which the store holds; the forecast service
    answers the endpoint of Paris with [text]. *)
Definition paris_request (text : string) (nothing breaks : bool) : World :=
  {| base := double.warm; city := "Paris";
     forecast := [(weather_endpoint double.paris, text)];
     texts := ∅; printed := []; written := [];
     lookup_answers_nothing := nothing; reading_breaks := breaks |}.

(** A request for Paris, which the store holds, while the forecast service
    cannot be reached. *)
Definition paris_offline : World :=
  {| base := double.warm; city := "Paris"; forecast := [];
     texts := ∅; printed := []; written := [];
     lookup_answers_nothing := false; reading_breaks := false |}.

(** A request for a city that neither the store nor the geocoder, which
    cannot be reached, knows. *)
Definition mars_request : World :=
  {| base := {| double.cities := ∅; double.store_reads := true;
                double.store_writes := true; double.geocoder := ∅;
                double.bodies := ∅; double.next_body := 0 |};
     city := "Mars"; forecast := [];
     texts := ∅; printed := []; written := [];
     lookup_answers_nothing := false; reading_breaks := false |}.

(** The decoder of the forecast pipeline: it knows one good body and one
    body that lacks its temperatures. *)
Definition json_Unmarshal : string -> WeatherResponse * option error :=
  double.json_Unmarshal
    {[ "good" := double.body ["2024-03-11T14:00"] [F64 false 37 (-1)];
       "short" := double.body ["2024-03-11T14:00"] [] ]}.

End double_web.

(** * Properties of the forecast pipeline *)

Arguments time.Parse : simpl never.
Arguments time.Format : simpl never.
Arguments fmt.Sprintf_1f_degC : simpl never.

(** The two layouts, put back together, are the layout strings of the
    source. *)
Remark layout_strings :
  time.layout_string layout_hourly = "2006-01-02T15:04"
  /\ time.layout_string layout_label = "Mon 15:04".
Proof. split; reflexivity. Qed.

(** The degree sign of the source's format string is the two bytes C2 B0. *)
Remark degC_literal : fmt.degC = "°C".
Proof. reflexivity. Qed.

(** Every error of [time.Parse] is a [*time.ParseError] that carries the
    layout and the value. *)
Lemma parse_loop_error alayout avalue cs trailer value f e :
  time.parse_loop alayout avalue cs trailer value f = inr e ->
  exists layoutElem valueElem message,
    e = time_ParseError alayout avalue layoutElem valueElem message.
Proof.
  revert value f. induction cs as [|[prefix c] cs IH]; intros value f; simpl.
  - destruct (time.skip value trailer) as [v bad].
    destruct bad; [intros [= <-]; eauto|].
    destruct (negb _); [intros [= <-]; eauto | discriminate].
  - destruct (time.skip value prefix) as [v bad].
    destruct bad; [intros [= <-]; eauto|].
    destruct (time.parse_std c v f) as [[[f' v'] rangeErr] err].
    destruct (negb _); [intros [= <-]; eauto|].
    destruct err; [intros [= <-]; eauto|].
    apply IH.
Qed.

Lemma Parse_error l value e :
  snd (time.Parse l value) = Some e ->
  exists layoutElem valueElem message,
    e = time_ParseError (time.layout_string l) value layoutElem valueElem
          message.
Proof.
  unfold time.Parse.
  destruct (time.parse_loop _ _ _ _ _ _) as [f|e'] eqn:Hloop.
  - destruct (_ || _); simpl; [intros [= <-]; eauto | discriminate].
  - simpl. intros [= <-]. eapply parse_loop_error, Hloop.
Qed.

Lemma parses_true t :
  parses t = true -> snd (time.Parse layout_hourly t) = None.
Proof. unfold parses. by destruct (snd _). Qed.

Lemma parses_false t e :
  snd (time.Parse layout_hourly t) = Some e -> parses t = false.
Proof. unfold parses. by intros ->. Qed.

(** What the layout accepts: the hour may have one digit; seconds, a zone,
    a space for the [T], a day the month does not have or an hour past 23
    are refused. *)
Remark parses_examples :
  parses "2024-03-11T14:00" = true
  /\ parses "2024-03-11T4:00" = true
  /\ parses "2024-02-29T23:59" = true
  /\ parses "2023-02-29T23:59" = false
  /\ parses "2024-03-11T14:00:00" = false
  /\ parses "2024-03-11T14:00Z" = false
  /\ parses "2024-03-11 14:00" = false
  /\ parses "2024-03-11T24:00" = false
  /\ parses "2024-3-11T14:00" = false
  /\ parses "" = false.
Proof. vm_compute. repeat split. Qed.

(** The loop, one turn at a time. *)
Lemma range_nil city temps i forecasts :
  extractWeatherData_range city temps i [] forecasts
  = Return ({| City := city; Forecasts := forecasts |}, None).
Proof. reflexivity. Qed.

Lemma range_parse_ok city temps i t ts forecasts temperature :
  parses t = true ->
  temps !! i = Some temperature ->
  extractWeatherData_range city temps i (t :: ts) forecasts
  = extractWeatherData_range city temps (S i) ts
      (forecasts ++ [forecast_of t temperature]).
Proof.
  intros Ht%parses_true Hi. simpl. unfold forecast_of.
  destruct (time.Parse layout_hourly t) as [date err]. simpl in *. subst err.
  by rewrite Hi.
Qed.

Lemma range_parse_fails city temps i t ts forecasts e :
  snd (time.Parse layout_hourly t) = Some e ->
  extractWeatherData_range city temps i (t :: ts) forecasts
  = Return (WeatherDisplay_zero, Some e).
Proof.
  intros Ht. simpl.
  destruct (time.Parse layout_hourly t) as [date err]. simpl in *. by subst err.
Qed.

Lemma range_index_panics city temps i t ts forecasts :
  parses t = true ->
  temps !! i = None ->
  extractWeatherData_range city temps i (t :: ts) forecasts
  = Panic (index_out_of_range i (length temps)).
Proof.
  intros Ht%parses_true Hi. simpl.
  destruct (time.Parse layout_hourly t) as [date err]. simpl in *. subst err.
  by rewrite Hi.
Qed.

(** As long as the times parse and the temperatures last, the loop appends
    one entry per time, in order. *)
Lemma range_prefix city temps pre ts i forecasts :
  Forall (fun t => parses t = true) pre ->
  (i + length pre <= length temps)%nat ->
  extractWeatherData_range city temps i (pre ++ ts) forecasts
  = extractWeatherData_range city temps (i + length pre) ts
      (forecasts ++ zip_with forecast_of pre (drop i temps)).
Proof.
  intros Hpre. revert i forecasts.
  induction Hpre as [|t pre Ht _ IH]; intros i forecasts Hlen.
  - simpl. by rewrite Nat.add_0_r, app_nil_r.
  - change (length (t :: pre)) with (S (length pre)) in *.
    destruct (lookup_lt_is_Some_2 temps i) as [temperature Hi]; [lia|].
    rewrite <- app_comm_cons, (range_parse_ok _ _ _ _ _ _ _ Ht Hi), IH by lia.
    rewrite (drop_S _ _ _ Hi), <- app_assoc, Nat.add_succ_r.
    reflexivity.
Qed.

Lemma range_all_parse city temps ts :
  Forall (fun t => parses t = true) ts ->
  (length ts <= length temps)%nat ->
  extractWeatherData_range city temps 0 ts []
  = Return ({| City := city; Forecasts := zip_with forecast_of ts temps |}, None).
Proof.
  intros Hts Hlen.
  rewrite <- (app_nil_r ts) at 1.
  rewrite range_prefix by (simpl; done).
  by rewrite range_nil, drop_0.
Qed.

Lemma range_city city temps ts i forecasts display :
  extractWeatherData_range city temps i ts forecasts = Return (display, None) ->
  City display = city.
Proof.
  revert i forecasts. induction ts as [|t ts IH]; intros i forecasts; simpl.
  - by intros [= <-].
  - destruct (time.Parse layout_hourly t) as [date [err|]]; [discriminate|].
    destruct (temps !! i); [apply IH | discriminate].
Qed.

Lemma extractWeatherData_decoded json_Unmarshal city raw wr :
  json_Unmarshal raw = (wr, None) ->
  extractWeatherData json_Unmarshal city raw
  = extractWeatherData_range city (Temperature2m (Hourly wr)) 0
      (Time (Hourly wr)) [].
Proof. unfold extractWeatherData. by intros ->. Qed.

(** C1. On a body that decodes to [N] time strings and [N] temperatures,
    all time strings accepted by the layout, [extractWeatherData] returns
    without error a display of exactly [N] forecasts, and forecast [i] is
    the one built from time string [i] and temperature [i]. *)
Theorem extractWeatherData_parallel_arrays
    json_Unmarshal city raw wr (N : nat) :
  json_Unmarshal raw = (wr, None) ->
  length (Time (Hourly wr)) = N ->
  length (Temperature2m (Hourly wr)) = N ->
  Forall (fun t => parses t = true) (Time (Hourly wr)) ->
  exists display,
    extractWeatherData json_Unmarshal city raw = Return (display, None)
    /\ length (Forecasts display) = N
    /\ forall i t temperature,
         Time (Hourly wr) !! i = Some t ->
         Temperature2m (Hourly wr) !! i = Some temperature ->
         Forecasts display !! i = Some (forecast_of t temperature).
Proof.
  intros Hraw Htime Htemp Hparse.
  rewrite (extractWeatherData_decoded _ _ _ _ Hraw).
  rewrite range_all_parse by (done || lia).
  eexists. split; [reflexivity|]. simpl. split.
  - rewrite length_zip_with. lia.
  - intros i t temperature Ht Hx.
    by rewrite lookup_zip_with, Ht; simpl; rewrite Hx.
Qed.

Lemma extractWeatherData_parallel_arrays_witness :
  exists display,
    extractWeatherData
      (double.json_Unmarshal
         {[ "body" := double.body ["2024-03-11T14:00"; "2024-03-11T15:00"]
                        [F64 false 37 (-1); F64 false 19 0] ]})
      "Paris" "body" = Return (display, None)
    /\ length (Forecasts display) = 2%nat
    /\ forall i t temperature,
         ["2024-03-11T14:00"; "2024-03-11T15:00"] !! i = Some t ->
         [F64 false 37 (-1); F64 false 19 0] !! i = Some temperature ->
         Forecasts display !! i = Some (forecast_of t temperature).
Proof.
  apply (extractWeatherData_parallel_arrays _ "Paris" "body"
           (double.body ["2024-03-11T14:00"; "2024-03-11T15:00"]
              [F64 false 37 (-1); F64 false 19 0]) 2).
  - vm_compute. reflexivity.
  - reflexivity.
  - reflexivity.
  - repeat constructor.
Defined.

(** C9. When the temperatures are at least as many as the time strings and
    every time string is accepted, [extractWeatherData] returns without
    error exactly one forecast per time string; the temperatures past the
    last time string change nothing; and no time strings at all give a
    display with no forecasts, not an error. *)
Theorem extractWeatherData_surplus_temperatures
    json_Unmarshal city raw wr :
  json_Unmarshal raw = (wr, None) ->
  (length (Time (Hourly wr)) <= length (Temperature2m (Hourly wr)))%nat ->
  Forall (fun t => parses t = true) (Time (Hourly wr)) ->
  (exists display,
      extractWeatherData json_Unmarshal city raw = Return (display, None)
      /\ length (Forecasts display) = length (Time (Hourly wr))
      /\ Forecasts display
         = zip_with forecast_of (Time (Hourly wr)) (Temperature2m (Hourly wr)))
  /\ (forall raw' wr',
        json_Unmarshal raw' = (wr', None) ->
        Time (Hourly wr') = Time (Hourly wr) ->
        take (length (Time (Hourly wr))) (Temperature2m (Hourly wr'))
        = take (length (Time (Hourly wr))) (Temperature2m (Hourly wr)) ->
        extractWeatherData json_Unmarshal city raw'
        = extractWeatherData json_Unmarshal city raw)
  /\ (Time (Hourly wr) = [] ->
      extractWeatherData json_Unmarshal city raw
      = Return ({| City := city; Forecasts := [] |}, None)).
Proof.
  intros Hraw Hlen Hparse.
  rewrite (extractWeatherData_decoded _ _ _ _ Hraw).
  rewrite range_all_parse by done.
  split; [|split].
  - eexists. split; [reflexivity|]. simpl. split; [|done].
    rewrite length_zip_with. lia.
  - intros raw' wr' Hraw' Htime Htake.
    rewrite (extractWeatherData_decoded _ _ _ _ Hraw'), Htime.
    assert (length (Time (Hourly wr)) <= length (Temperature2m (Hourly wr')))%nat
      as Hlen'.
    { apply (f_equal length) in Htake. rewrite !length_take in Htake. lia. }
    rewrite range_all_parse by done.
    rewrite <- (zip_with_take_r _ _ (Temperature2m (Hourly wr'))), Htake.
    by rewrite zip_with_take_r.
  - by intros ->.
Qed.

Lemma extractWeatherData_surplus_temperatures_witness :
  extractWeatherData
    (double.json_Unmarshal
       {[ "short" := double.body ["2024-03-11T14:00"]
                       [F64 false 37 (-1); F64 false 19 0];
          "other" := double.body ["2024-03-11T14:00"]
                       [F64 false 37 (-1); F64_NaN; F64 true 5 3] ]})
    "Paris" "other"
  = extractWeatherData
      (double.json_Unmarshal
         {[ "short" := double.body ["2024-03-11T14:00"]
                         [F64 false 37 (-1); F64 false 19 0];
            "other" := double.body ["2024-03-11T14:00"]
                         [F64 false 37 (-1); F64_NaN; F64 true 5 3] ]})
      "Paris" "short".
Proof.
  refine (proj1 (proj2 (extractWeatherData_surplus_temperatures _ "Paris" "short"
            (double.body ["2024-03-11T14:00"] [F64 false 37 (-1); F64 false 19 0])
            _ _ _)) "other"
            (double.body ["2024-03-11T14:00"]
               [F64 false 37 (-1); F64_NaN; F64 true 5 3]) _ _ _).
  - vm_compute. reflexivity.
  - simpl. lia.
  - repeat constructor.
  - vm_compute. reflexivity.
  - reflexivity.
  - reflexivity.
Defined.

(** C2. The code does not reject a temperature array shorter than the time
    array: when the time strings up to the first one without a temperature
    are accepted, the index expression [Temperature2m[i]] is evaluated out
    of range and [extractWeatherData] panics. *)
Theorem extractWeatherData_short_temperatures_panic
    json_Unmarshal city raw wr :
  json_Unmarshal raw = (wr, None) ->
  (length (Temperature2m (Hourly wr)) < length (Time (Hourly wr)))%nat ->
  Forall (fun t => parses t = true)
    (take (S (length (Temperature2m (Hourly wr)))) (Time (Hourly wr))) ->
  extractWeatherData json_Unmarshal city raw
  = Panic (index_out_of_range (length (Temperature2m (Hourly wr)))
             (length (Temperature2m (Hourly wr)))).
Proof.
  intros Hraw Hlen Hparse.
  rewrite (extractWeatherData_decoded _ _ _ _ Hraw).
  set (temps := Temperature2m (Hourly wr)) in *.
  set (times := Time (Hourly wr)) in *.
  destruct (lookup_lt_is_Some_2 times (length temps)) as [t Ht]; [done|].
  rewrite <- (take_drop_middle _ _ _ Ht).
  rewrite (take_S_r _ _ _ Ht) in Hparse.
  apply Forall_app in Hparse as [Hpre Hlast].
  rewrite Forall_singleton in Hlast.
  rewrite range_prefix by (rewrite ?length_take; done || lia).
  rewrite length_take, Nat.min_l, Nat.add_0_l by lia.
  apply range_index_panics; [done|].
  by apply lookup_ge_None_2.
Qed.

Lemma extractWeatherData_short_temperatures_panic_witness :
  extractWeatherData
    (double.json_Unmarshal {[ "body" := double.body ["2024-03-11T14:00"] [] ]})
    "Paris" "body"
  = Panic (index_out_of_range 0 0).
Proof.
  apply (extractWeatherData_short_temperatures_panic _ "Paris" "body"
           (double.body ["2024-03-11T14:00"] [])).
  - vm_compute. reflexivity.
  - simpl. lia.
  - repeat constructor.
Defined.

(** C7. The code breaks the claim where the temperatures run out before
    the refused time string: with a time array whose second string is not
    accepted and no temperatures, the loop panics at index 0 before it
    reaches that string, so no error of any kind is returned.  This is the
    missing length check of C2. *)
Lemma extractWeatherData_parse_error_failing_input :
  parses "tomorrow" = false
  /\ extractWeatherData
       (double.json_Unmarshal
          {[ "body" := double.body ["2024-03-11T14:00"; "tomorrow"] [] ]})
       "Paris" "body"
     = Panic (index_out_of_range 0 0)
  /\ forall display e,
       extractWeatherData
         (double.json_Unmarshal
            {[ "body" := double.body ["2024-03-11T14:00"; "tomorrow"] [] ]})
         "Paris" "body"
       <> Return (display, Some e).
Proof.
  split; [vm_compute; reflexivity|].
  assert (extractWeatherData
            (double.json_Unmarshal
               {[ "body" := double.body ["2024-03-11T14:00"; "tomorrow"] [] ]})
            "Paris" "body"
          = Panic (index_out_of_range 0 0)) as H by (vm_compute; reflexivity).
  split; [exact H|]. intros display e. rewrite H. discriminate.
Qed.

(** The path beside it, on which the code does what is asked: when some
    time string is not accepted by the layout and every time string before
    the first such one has a temperature, [extractWeatherData] returns the
    zero display together with the [*time.ParseError] of that first string:
    nothing of the entries that did parse is returned. *)
Theorem extractWeatherData_parse_error
    json_Unmarshal city raw wr before bad after e :
  json_Unmarshal raw = (wr, None) ->
  Time (Hourly wr) = (before ++ bad :: after)%list ->
  Forall (fun t => parses t = true) before ->
  snd (time.Parse layout_hourly bad) = Some e ->
  (length before <= length (Temperature2m (Hourly wr)))%nat ->
  extractWeatherData json_Unmarshal city raw
  = Return (WeatherDisplay_zero, Some e)
  /\ exists layoutElem valueElem message,
       e = time_ParseError "2006-01-02T15:04" bad layoutElem valueElem message.
Proof.
  intros Hraw Htime Hbefore Hbad Hlen.
  rewrite (extractWeatherData_decoded _ _ _ _ Hraw), Htime.
  rewrite range_prefix by done. split.
  - by apply range_parse_fails.
  - apply (Parse_error layout_hourly), Hbad.
Qed.

Lemma extractWeatherData_parse_error_witness :
  extractWeatherData
    (double.json_Unmarshal
       {[ "body" := double.body ["2024-03-11T14:00"; "2024-03-11 15:00";
                                 "2024-03-11T16:00"]
                      [F64 false 37 (-1); F64 false 19 0; F64 false 5 0] ]})
    "Paris" "body"
  = Return (WeatherDisplay_zero,
            Some (time_ParseError "2006-01-02T15:04" "2024-03-11 15:00"
                    "T" " 15:00" msg_none)).
Proof.
  apply (extractWeatherData_parse_error _ "Paris" "body"
           (double.body ["2024-03-11T14:00"; "2024-03-11 15:00";
                         "2024-03-11T16:00"]
              [F64 false 37 (-1); F64 false 19 0; F64 false 5 0])
           ["2024-03-11T14:00"] "2024-03-11 15:00" ["2024-03-11T16:00"]).
  - vm_compute. reflexivity.
  - reflexivity.
  - repeat constructor.
  - vm_compute. reflexivity.
  - simpl. lia.
Defined.

(** The [float64] that the literal [18.45] denotes lies strictly below
    18.45: it is [5193213320311603 * 2^-48], less than half a unit in the
    last place away from 18.45. *)
Lemma float64_of_18_45 :
  strconv.float64_of_decimal 1845 (-2) = F64 false 5193213320311603 (-48)
  /\ 2 ^ 52 <= 5193213320311603 < 2 ^ 53
  /\ 5193213320311603 * 100 < 1845 * 2 ^ 48
  /\ 2 * (1845 * 2 ^ 48 - 5193213320311603 * 100) < 100.
Proof. vm_compute. repeat split; congruence. Qed.

(** C3, as stated, fails on the temperature label: the body with the time
    string ["2024-03-11T14:00"] and the temperature [18.45] does not give
    the forecast [("Mon 14:00", "18.5°C")]. *)
Lemma extractWeatherData_formatting_counterexample :
  extractWeatherData
    (double.json_Unmarshal
       {[ "body" := double.body ["2024-03-11T14:00"]
                      [strconv.float64_of_decimal 1845 (-2)] ]})
    "Paris" "body"
  <> Return ({| City := "Paris";
                Forecasts := [{| Date := "Mon 14:00";
                                 Temperature := "18.5°C" |}] |}, None).
Proof. vm_compute. discriminate. Qed.

(** C3, amended. The time string ["2024-03-11T14:00"] yields the label
    ["Mon 14:00"]; the temperature [18.45], held as the nearest [float64],
    yields ["18.4°C"]: one digit after the point, rounded from the exact
    binary value, then the fixed suffix ["°C"].  A temperature that is
    exactly a half, such as [0.25] or [0.75], goes to the even digit. *)
Theorem extractWeatherData_formatting :
  extractWeatherData
    (double.json_Unmarshal
       {[ "body" := double.body ["2024-03-11T14:00"]
                      [strconv.float64_of_decimal 1845 (-2)] ]})
    "Paris" "body"
  = Return ({| City := "Paris";
               Forecasts := [{| Date := "Mon 14:00";
                                Temperature := "18.4°C" |}] |}, None)
  /\ forecast_of "2024-03-11T14:00" (strconv.float64_of_decimal 1845 (-2))
     = {| Date := "Mon 14:00"; Temperature := "18.4°C" |}
  /\ fmt.Sprintf_1f_degC (strconv.float64_of_decimal 25 (-2)) = "0.2°C"
  /\ fmt.Sprintf_1f_degC (strconv.float64_of_decimal 75 (-2)) = "0.8°C"
  /\ fmt.Sprintf_1f_degC (strconv.float64_of_decimal 185 (-1)) = "18.5°C".
Proof. vm_compute. repeat split. Qed.

(** C10. Whenever [extractWeatherData] returns without error, the [City]
    of the display is the [city] argument, whatever the body; and the
    latitude, longitude and time zone of the decoded body can be replaced
    by anything without changing what is returned. *)
Theorem extractWeatherData_city json_Unmarshal city raw display :
  extractWeatherData json_Unmarshal city raw = Return (display, None) ->
  City display = city
  /\ forall wr latitude longitude timezone,
       json_Unmarshal raw = (wr, None) ->
       extractWeatherData
         (fun _ => ({| wr_Latitude := latitude; wr_Longitude := longitude;
                       Timezone := timezone; Hourly := Hourly wr |}, None))
         city raw
       = Return (display, None).
Proof.
  intros Hret. split.
  - unfold extractWeatherData in Hret.
    destruct (json_Unmarshal raw) as [wr [err|]]; [discriminate|].
    eapply range_city, Hret.
  - intros wr latitude longitude timezone Hraw.
    by rewrite (extractWeatherData_decoded _ _ _ _ Hraw) in Hret.
Qed.

Lemma extractWeatherData_city_witness :
  City {| City := "Paris";
          Forecasts := [{| Date := "Mon 14:00"; Temperature := "18.5°C" |}] |}
  = "Paris".
Proof.
  refine (proj1 (extractWeatherData_city
            (double.json_Unmarshal
               {[ "body" := {| wr_Latitude := F64 false 3 4;
                               wr_Longitude := F64 true 1 1;
                               Timezone := "Europe/Berlin";
                               Hourly := {| Time := ["2024-03-11T14:00"];
                                            Temperature2m := [F64 false 37 (-1)] |} |} ]})
            "Paris" "body" _ _)).
  vm_compute. reflexivity.
Defined.

(** * Properties of the location resolver *)

Section Resolver.

Context {World : Type}.
Variable handle : forall X : Type, call X -> World -> X * World.

(** C4. When the store lookup succeeds with a row holding [coordinate],
    [getLatLong] returns [coordinate] and the lookup is the only call it
    makes: the geocoder is not invoked and the store is not written. *)
Theorem getLatLong_cache_hit db name w coordinate w1 :
  handle _ (store_lookup db name) w = ((Some coordinate, None), w1) ->
  run handle (getLatLong db name) w
  = ([Event (store_lookup db name) (Some coordinate, None)],
     Return (Some coordinate, None), w1)
  /\ forall trace r w',
       run handle (getLatLong db name) w = (trace, r, w') ->
       existsb is_geocoder_call trace = false
       /\ existsb is_store_write trace = false.
Proof.
  intros Hget.
  assert (run handle (getLatLong db name) w
          = ([Event (store_lookup db name) (Some coordinate, None)],
             Return (Some coordinate, None), w1)) as Hrun.
  { unfold getLatLong, store_lookup in *. simpl. by rewrite Hget. }
  split; [exact Hrun|].
  intros trace r w'. rewrite Hrun. by intros [= <- <- <-].
Qed.

(** Two failed lookups that leave the same world behind are followed by
    the same calls, starting with the geocoder, and the same result. *)
Lemma getLatLong_miss_related db name w w0 latLong latLong0 e e0 w1 :
  handle _ (store_lookup db name) w = ((latLong, Some e), w1) ->
  handle _ (store_lookup db name) w0 = ((latLong0, Some e0), w1) ->
  exists answer trace r w',
    run handle (getLatLong db name) w
    = (Event (store_lookup db name) (latLong, Some e)
         :: Event (http_Get (geo_endpoint name)) answer :: trace, r, w')
    /\ run handle (getLatLong db name) w0
       = (Event (store_lookup db name) (latLong0, Some e0)
            :: Event (http_Get (geo_endpoint name)) answer :: trace, r, w').
Proof.
  intros Hget Hget0.
  unfold getLatLong, fetchLatLong, store_lookup in *. simpl.
  rewrite Hget, Hget0. simpl.
  destruct (handle _ (http_Get (geo_endpoint name)) w1) as [answer w2].
  destruct (run handle _ w2) as [[trace r] w'].
  by exists answer, trace, r, w'.
Qed.

(** C8. Whatever error the store lookup fails with, [getLatLong] goes on
    to call the geocoder, and the calls that follow, the result and the
    world left behind are those of a miss: they do not depend on the
    error. *)
Theorem getLatLong_lookup_error_is_miss db name w latLong e w1 :
  handle _ (store_lookup db name) w = ((latLong, Some e), w1) ->
  exists answer trace r w',
    run handle (getLatLong db name) w
    = (Event (store_lookup db name) (latLong, Some e)
         :: Event (http_Get (geo_endpoint name)) answer :: trace, r, w')
    /\ forall w0 latLong0 e0,
         handle _ (store_lookup db name) w0 = ((latLong0, Some e0), w1) ->
         run handle (getLatLong db name) w0
         = (Event (store_lookup db name) (latLong0, Some e0)
              :: Event (http_Get (geo_endpoint name)) answer :: trace, r, w').
Proof.
  intros Hget.
  destruct (getLatLong_miss_related db name w w latLong latLong e e w1 Hget Hget)
    as (answer & trace & r & w' & Hrun & _).
  exists answer, trace, r, w'. split; [exact Hrun|].
  intros w0 latLong0 e0 H0.
  destruct (getLatLong_miss_related db name w w0 latLong latLong0 e e0 w1 Hget H0)
    as (answer0 & trace0 & r0 & w0' & Hrun' & Hrun0).
  rewrite Hrun in Hrun'.
  assert (Some answer = Some answer0) as [= <-].
  { pose proof (f_equal (fun t => geocoder_answer <$> (fst (fst t) !! 1%nat))
                  Hrun') as Hanswer.
    simpl in Hanswer. congruence. }
  assert (trace = trace0) as <-
    by exact (f_equal (fun t => drop 2 (fst (fst t))) Hrun').
  assert (r = r0) as <- by exact (f_equal (fun t => snd (fst t)) Hrun').
  assert (w' = w0') as <- by exact (f_equal snd Hrun').
  exact Hrun0.
Qed.

(** C6. When the store lookup fails and the geocoder answers with no
    results, [getLatLong] returns the error ["no results found"] and no
    coordinate, and the store is not written. *)
Theorem getLatLong_no_results db name w latLong e w1 resp w2 w3 closed w4 :
  handle _ (store_lookup db name) w = ((latLong, Some e), w1) ->
  handle _ (http_Get (geo_endpoint name)) w1 = ((resp, None), w2) ->
  handle _ (json_Decode (Body resp)) w2 = (({| Results := [] |}, None), w3) ->
  handle _ (Body_Close (Body resp)) w3 = (closed, w4) ->
  run handle (getLatLong db name) w
  = ([Event (store_lookup db name) (latLong, Some e);
      Event (http_Get (geo_endpoint name)) (resp, None);
      Event (json_Decode (Body resp)) ({| Results := [] |}, None);
      Event (Body_Close (Body resp)) closed],
     Return (None, Some (errors_New "no results found")), w4)
  /\ forall trace r w',
       run handle (getLatLong db name) w = (trace, r, w') ->
       existsb is_store_write trace = false.
Proof.
  intros Hget Hhttp Hdecode Hclose.
  assert (run handle (getLatLong db name) w
          = ([Event (store_lookup db name) (latLong, Some e);
              Event (http_Get (geo_endpoint name)) (resp, None);
              Event (json_Decode (Body resp)) ({| Results := [] |}, None);
              Event (Body_Close (Body resp)) closed],
             Return (None, Some (errors_New "no results found")), w4)) as Hrun.
  { unfold getLatLong, fetchLatLong, store_lookup in *. simpl.
    rewrite Hget. simpl. rewrite Hhttp. simpl. rewrite Hdecode. simpl.
    by rewrite Hclose. }
  split; [exact Hrun|].
  intros trace r w'. rewrite Hrun. by intros [= <- <- <-].
Qed.

(** C5. When the store lookup fails, the geocoder answers with a first
    result [coordinate], and the insert of that coordinate fails with [e],
    [getLatLong] returns [e] and the nil pointer: the coordinate it knows
    is not returned. *)
Theorem getLatLong_insert_error
    db name w latLong e0 w1 resp w2 coordinate others w3 closed w4 e w5 :
  handle _ (store_lookup db name) w = ((latLong, Some e0), w1) ->
  handle _ (http_Get (geo_endpoint name)) w1 = ((resp, None), w2) ->
  handle _ (json_Decode (Body resp)) w2
  = (({| Results := coordinate :: others |}, None), w3) ->
  handle _ (Body_Close (Body resp)) w3 = (closed, w4) ->
  handle _ (store_insert db name coordinate) w4 = (Some e, w5) ->
  run handle (getLatLong db name) w
  = ([Event (store_lookup db name) (latLong, Some e0);
      Event (http_Get (geo_endpoint name)) (resp, None);
      Event (json_Decode (Body resp))
        ({| Results := coordinate :: others |}, None);
      Event (Body_Close (Body resp)) closed;
      Event (store_insert db name coordinate) (Some e)],
     Return (None, Some e), w5).
Proof.
  intros Hget Hhttp Hdecode Hclose Hinsert.
  unfold getLatLong, fetchLatLong, insertCity, store_lookup, store_insert in *.
  simpl. rewrite Hget. simpl. rewrite Hhttp. simpl. rewrite Hdecode. simpl.
  rewrite Hclose. simpl. by rewrite Hinsert.
Qed.

End Resolver.

Lemma getLatLong_cache_hit_witness :
  run double.handle (getLatLong double.db "Paris") double.warm
  = ([Event (store_lookup double.db "Paris") (Some double.paris, None)],
     Return (Some double.paris, None), double.warm).
Proof.
  refine (proj1 (getLatLong_cache_hit double.handle double.db "Paris"
                   double.warm double.paris double.warm _)).
  vm_compute. reflexivity.
Defined.

Lemma getLatLong_lookup_error_is_miss_witness :
  exists answer trace r w',
    run double.handle (getLatLong double.db "Paris") (double.fresh false true)
    = (Event (store_lookup double.db "Paris")
         (None, Some double.driver_ErrBadConn)
         :: Event (http_Get (geo_endpoint "Paris")) answer :: trace, r, w').
Proof.
  destruct (getLatLong_lookup_error_is_miss double.handle double.db "Paris"
              (double.fresh false true) None double.driver_ErrBadConn
              (double.fresh false true))
    as (answer & trace & r & w' & Hrun & _).
  - vm_compute. reflexivity.
  - by exists answer, trace, r, w'.
Defined.

Lemma getLatLong_no_results_witness :
  snd (fst (run double.handle (getLatLong double.db "Atlantis")
              (double.fresh true true)))
  = Return (None, Some (errors_New "no results found")).
Proof.
  edestruct (getLatLong_no_results double.handle double.db "Atlantis"
               (double.fresh true true)) as [Hrun _].
  - vm_compute. reflexivity.
  - vm_compute. reflexivity.
  - vm_compute. reflexivity.
  - vm_compute. reflexivity.
  - rewrite Hrun. reflexivity.
Defined.

Lemma getLatLong_insert_error_witness :
  snd (fst (run double.handle (getLatLong double.db "Paris")
              (double.fresh true false)))
  = Return (None, Some double.driver_ErrBadConn).
Proof.
  erewrite (getLatLong_insert_error double.handle double.db "Paris"
              (double.fresh true false)).
  - reflexivity.
  - vm_compute. reflexivity.
  - vm_compute. reflexivity.
  - vm_compute. reflexivity.
  - vm_compute. reflexivity.
  - vm_compute. reflexivity.
Defined.

(** * Further properties of the forecast pipeline *)

(** What the loop can end in, read backwards. *)
Lemma range_return_inv city temps ts i forecasts display :
  extractWeatherData_range city temps i ts forecasts = Return (display, None) ->
  Forall (fun t => parses t = true) ts
  /\ (ts <> [] -> (i + length ts <= length temps)%nat)
  /\ display = {| City := city;
                  Forecasts := forecasts
                                 ++ zip_with forecast_of ts (drop i temps) |}.
Proof.
  revert i forecasts. induction ts as [|t ts IH]; intros i forecasts.
  - rewrite range_nil. intros [= <-]. simpl. by rewrite app_nil_r.
  - destruct (parses t) eqn:Ht.
    + destruct (temps !! i) as [temperature|] eqn:Hi.
      * rewrite (range_parse_ok _ _ _ _ _ _ _ Ht Hi).
        intros (Hts & Hlen & ->)%IH.
        apply lookup_lt_Some in Hi as Hlt.
        split; [by constructor|]. split.
        -- intros _. destruct ts as [|t' ts]; simpl in *; [lia|].
           specialize (Hlen ltac:(done)). lia.
        -- by rewrite (drop_S _ _ _ Hi), <- app_assoc.
      * by rewrite (range_index_panics _ _ _ _ _ _ Ht Hi).
    + unfold parses in Ht.
      destruct (snd (time.Parse layout_hourly t)) as [e|] eqn:He; [|done].
      by rewrite (range_parse_fails _ _ _ _ _ _ _ He).
Qed.

Lemma range_error_inv city temps ts i forecasts display e :
  extractWeatherData_range city temps i ts forecasts
  = Return (display, Some e) ->
  display = WeatherDisplay_zero
  /\ exists before bad after,
       ts = (before ++ bad :: after)%list
       /\ Forall (fun t => parses t = true) before
       /\ snd (time.Parse layout_hourly bad) = Some e.
Proof.
  revert i forecasts. induction ts as [|t ts IH]; intros i forecasts.
  - by rewrite range_nil.
  - destruct (parses t) eqn:Ht.
    + destruct (temps !! i) as [temperature|] eqn:Hi.
      * rewrite (range_parse_ok _ _ _ _ _ _ _ Ht Hi).
        intros (-> & before & bad & after & -> & Hbefore & Hbad)%IH.
        split; [done|]. exists (t :: before), bad, after.
        split; [done|]. split; [by constructor | done].
      * by rewrite (range_index_panics _ _ _ _ _ _ Ht Hi).
    + unfold parses in Ht.
      destruct (snd (time.Parse layout_hourly t)) as [e'|] eqn:He; [|done].
      rewrite (range_parse_fails _ _ _ _ _ _ _ He). intros [= <- <-].
      split; [done|]. exists [], t, ts. by repeat split.
Qed.

Lemma range_panic_inv city temps ts i forecasts p :
  (i <= length temps)%nat ->
  extractWeatherData_range city temps i ts forecasts = Panic p ->
  p = index_out_of_range (length temps) (length temps)
  /\ (length temps < i + length ts)%nat
  /\ Forall (fun t => parses t = true) (take (S (length temps - i)) ts).
Proof.
  revert i forecasts. induction ts as [|t ts IH]; intros i forecasts Hi.
  - by rewrite range_nil.
  - destruct (parses t) eqn:Ht.
    + destruct (temps !! i) as [temperature|] eqn:Hlook.
      * rewrite (range_parse_ok _ _ _ _ _ _ _ Ht Hlook).
        apply lookup_lt_Some in Hlook as Hlt.
        intros (-> & Hlen & Hparse)%IH; [|lia].
        split; [done|]. split; [simpl; lia|].
        replace (S (length temps - i)) with (S (S (length temps - S i))) by lia.
        rewrite firstn_cons. by constructor.
      * rewrite (range_index_panics _ _ _ _ _ _ Ht Hlook). intros [= <-].
        apply lookup_ge_None_1 in Hlook.
        assert (i = length temps) as -> by lia.
        split; [done|]. split; [simpl; lia|].
        rewrite Nat.sub_diag. simpl. rewrite take_0. by repeat constructor.
    + unfold parses in Ht.
      destruct (snd (time.Parse layout_hourly t)) as [e|] eqn:He; [|done].
      by rewrite (range_parse_fails _ _ _ _ _ _ _ He).
Qed.

(** X1. A return without error means the body decoded, every time string
    was accepted, no temperature was missing, and the forecasts are the
    time strings paired in order with the temperatures. *)
Theorem extractWeatherData_success_inv json_Unmarshal city raw display :
  extractWeatherData json_Unmarshal city raw = Return (display, None) ->
  exists wr,
    json_Unmarshal raw = (wr, None)
    /\ Forall (fun t => parses t = true) (Time (Hourly wr))
    /\ (length (Time (Hourly wr)) <= length (Temperature2m (Hourly wr)))%nat
    /\ display
       = {| City := city;
            Forecasts := zip_with forecast_of (Time (Hourly wr))
                           (Temperature2m (Hourly wr)) |}
    /\ length (Forecasts display) = length (Time (Hourly wr)).
Proof.
  unfold extractWeatherData.
  destruct (json_Unmarshal raw) as [wr [err|]]; [discriminate|].
  intros (Hparse & Hlen & ->)%range_return_inv.
  exists wr. split; [done|]. split; [done|].
  assert (length (Time (Hourly wr)) <= length (Temperature2m (Hourly wr)))%nat
    as Hle.
  { destruct (Time (Hourly wr)) as [|t ts]; [simpl; lia|].
    specialize (Hlen ltac:(done)). lia. }
  split; [done|]. split; [done|].
  cbn [Forecasts app]. rewrite drop_0, length_zip_with. lia.
Qed.

Lemma extractWeatherData_success_inv_witness :
  exists wr,
    double.json_Unmarshal
      {[ "body" := double.body ["2024-03-11T14:00"] [F64 false 37 (-1)] ]}
      "body" = (wr, None)
    /\ Forall (fun t => parses t = true) (Time (Hourly wr))
    /\ (length (Time (Hourly wr)) <= length (Temperature2m (Hourly wr)))%nat
    /\ {| City := "Paris";
          Forecasts := [{| Date := "Mon 14:00"; Temperature := "18.5°C" |}] |}
       = {| City := "Paris";
            Forecasts := zip_with forecast_of (Time (Hourly wr))
                           (Temperature2m (Hourly wr)) |}
    /\ length [{| Date := "Mon 14:00"; Temperature := "18.5°C" |}]
       = length (Time (Hourly wr)).
Proof.
  apply (extractWeatherData_success_inv
           (double.json_Unmarshal
              {[ "body" := double.body ["2024-03-11T14:00"]
                             [F64 false 37 (-1)] ]})
           "Paris" "body"
           {| City := "Paris";
              Forecasts := [{| Date := "Mon 14:00";
                               Temperature := "18.5°C" |}] |}).
  vm_compute. reflexivity.
Defined.

(** X2. [extractWeatherData] panics only on a body that decoded with fewer
    temperatures than time strings, and then always at the first index
    without a temperature, all time strings up to that index having been
    accepted; with at least as many temperatures as time strings it never
    panics. *)
Theorem extractWeatherData_panic_inv json_Unmarshal city raw p :
  extractWeatherData json_Unmarshal city raw = Panic p ->
  exists wr,
    json_Unmarshal raw = (wr, None)
    /\ (length (Temperature2m (Hourly wr)) < length (Time (Hourly wr)))%nat
    /\ p = index_out_of_range (length (Temperature2m (Hourly wr)))
             (length (Temperature2m (Hourly wr)))
    /\ Forall (fun t => parses t = true)
         (take (S (length (Temperature2m (Hourly wr)))) (Time (Hourly wr))).
Proof.
  unfold extractWeatherData.
  destruct (json_Unmarshal raw) as [wr [err|]]; [discriminate|].
  intros (-> & Hlen & Hparse)%range_panic_inv; [|lia].
  exists wr. rewrite Nat.sub_0_r in Hparse. by repeat split.
Qed.

Lemma extractWeatherData_panic_inv_witness :
  exists wr,
    double.json_Unmarshal
      {[ "body" := double.body ["2024-03-11T14:00"; "2024-03-11T15:00"]
                     [F64 false 37 (-1)] ]} "body" = (wr, None)
    /\ (length (Temperature2m (Hourly wr)) < length (Time (Hourly wr)))%nat
    /\ index_out_of_range 1 1
       = index_out_of_range (length (Temperature2m (Hourly wr)))
           (length (Temperature2m (Hourly wr)))
    /\ Forall (fun t => parses t = true)
         (take (S (length (Temperature2m (Hourly wr)))) (Time (Hourly wr))).
Proof.
  apply (extractWeatherData_panic_inv _ "Paris" "body").
  vm_compute. reflexivity.
Defined.

(** X3. Whenever [extractWeatherData] returns an error, the display next
    to it is the zero value, and the error is either the decoder's error
    behind the prefix ["error decoding weather response: "], or what
    [time.Parse] answered for the first time string it refused. *)
Theorem extractWeatherData_error_inv json_Unmarshal city raw display e :
  extractWeatherData json_Unmarshal city raw = Return (display, Some e) ->
  display = WeatherDisplay_zero
  /\ ((exists cause,
         snd (json_Unmarshal raw) = Some cause
         /\ e = fmt_Errorf_w "error decoding weather response: " cause)
      \/ (exists wr before bad after,
            json_Unmarshal raw = (wr, None)
            /\ Time (Hourly wr) = (before ++ bad :: after)%list
            /\ Forall (fun t => parses t = true) before
            /\ snd (time.Parse layout_hourly bad) = Some e)).
Proof.
  unfold extractWeatherData.
  destruct (json_Unmarshal raw) as [wr [err|]].
  - intros [= <- <-]. split; [done|]. left. by exists err.
  - intros (-> & before & bad & after & Htime & Hbefore & Hbad)%range_error_inv.
    split; [done|]. right. by exists wr, before, bad, after.
Qed.

Lemma extractWeatherData_error_inv_witness :
  WeatherDisplay_zero = WeatherDisplay_zero
  /\ ((exists cause,
         snd (double.json_Unmarshal ∅ "{") = Some cause
         /\ fmt_Errorf_w "error decoding weather response: "
              (library_error "encoding/json" "invalid character")
            = fmt_Errorf_w "error decoding weather response: " cause)
      \/ (exists wr before bad after,
            double.json_Unmarshal ∅ "{" = (wr, None)
            /\ Time (Hourly wr) = (before ++ bad :: after)%list
            /\ Forall (fun t => parses t = true) before
            /\ snd (time.Parse layout_hourly bad)
               = Some (fmt_Errorf_w "error decoding weather response: "
                         (library_error "encoding/json" "invalid character")))).
Proof.
  apply (extractWeatherData_error_inv (double.json_Unmarshal ∅) "Paris" "{").
  vm_compute. reflexivity.
Defined.

(** ** The two labels *)

Lemma string_app_assoc (s1 s2 s3 : string) :
  (s1 +:+ s2) +:+ s3 = s1 +:+ (s2 +:+ s3).
Proof.
  induction s1 as [|c s1 IH]; [reflexivity|].
  change (String c ((s1 +:+ s2) +:+ s3) = String c (s1 +:+ (s2 +:+ s3))).
  by rewrite IH.
Qed.

Lemma string_app_length (s1 s2 : string) :
  String.length (s1 +:+ s2) = (String.length s1 + String.length s2)%nat.
Proof.
  induction s1 as [|c s1 IH]; [reflexivity|].
  change (S (String.length (s1 +:+ s2))
          = S (String.length s1 + String.length s2)).
  by rewrite IH.
Qed.

Lemma string_app_empty_r (s : string) : s +:+ "" = s.
Proof.
  induction s as [|c s IH]; [reflexivity|].
  change (String c (s +:+ "") = String c s). by rewrite IH.
Qed.

(** A property of the integers from [0] up to [n], checked one by one. *)
Lemma below_forallb (n : nat) (P : Z -> bool) (x : Z) :
  forallb P (Z.of_nat <$> seq 0 n) = true ->
  0 <= x < Z.of_nat n -> P x = true.
Proof.
  intros Hall Hx. rewrite forallb_forall in Hall.
  apply Hall, list_elem_of_In, list_elem_of_fmap.
  exists (Z.to_nat x). split; [lia|].
  apply list_elem_of_In, in_seq. lia.
Qed.

Lemma appendInt_app b x width :
  time.appendInt b x width = b +:+ time.appendInt "" x width.
Proof. reflexivity. Qed.

Lemma appendInt_2_length x :
  0 <= x < 100 -> String.length (time.appendInt "" x 2) = 2%nat.
Proof.
  intros Hx.
  apply Nat.eqb_eq,
    (below_forallb 100
       (fun x => (String.length (time.appendInt "" x 2) =? 2)%nat) x);
    [by vm_compute | lia].
Qed.

Lemma weekday_name wd :
  0 <= wd < 7 ->
  string_to 3 (nth (Z.to_nat wd) time.longDayNames "")
  = nth (Z.to_nat wd) time.shortDayNames ""
  /\ String.length (nth (Z.to_nat wd) time.shortDayNames "") = 3%nat.
Proof.
  intros Hwd.
  pose proof (below_forallb 7
    (fun wd =>
       String.eqb (string_to 3 (nth (Z.to_nat wd) time.longDayNames ""))
         (nth (Z.to_nat wd) time.shortDayNames "")
       && (String.length (nth (Z.to_nat wd) time.shortDayNames "") =? 3)%nat)
    wd ltac:(by vm_compute) ltac:(lia)) as H.
  apply andb_prop in H as [H1 H2].
  split; [by apply String.eqb_eq | by apply Nat.eqb_eq].
Qed.

(** The hour and the minute survive [parse]'s loop only inside their
    ranges. *)
Lemma parse_std_clock c value f f' value' rangeErrString :
  time.parse_std c value f = (f', value', rangeErrString, false) ->
  String.eqb rangeErrString "" = true ->
  0 <= time.f_hour f < 24 /\ 0 <= time.f_min f < 60 ->
  0 <= time.f_hour f' < 24 /\ 0 <= time.f_min f' < 60.
Proof.
  intros Hstd Hrange Hf.
  destruct c; cbv beta iota delta [time.parse_std] in Hstd.
  - destruct (_ || _); [discriminate|].
    destruct (time.atoi _) as [year err]. by injection Hstd as <- _ _ _.
  - destruct (time.getnum value true) as [[n v] err].
    by injection Hstd as <- _ _ _.
  - destruct (time.getnum value true) as [[n v] err].
    by injection Hstd as <- _ _ _.
  - destruct (time.getnum value false) as [[n v] err].
    injection Hstd as <- _ <- _. simpl.
    destruct (_ || _) eqn:Hb; [discriminate|]. lia.
  - destruct (time.getnum value true) as [[n v] err].
    injection Hstd as <- _ <- _. simpl.
    destruct (_ || _) eqn:Hb; [discriminate|]. lia.
  - destruct (time.lookup _ _) as [v err]. by injection Hstd as <- _ _ _.
Qed.

Lemma parse_loop_clock alayout avalue cs trailer value f f' :
  time.parse_loop alayout avalue cs trailer value f = inl f' ->
  0 <= time.f_hour f < 24 /\ 0 <= time.f_min f < 60 ->
  0 <= time.f_hour f' < 24 /\ 0 <= time.f_min f' < 60.
Proof.
  revert value f. induction cs as [|[prefix c] cs IH]; intros value f; simpl.
  - destruct (time.skip value trailer) as [v bad].
    destruct bad; [discriminate|].
    destruct (negb _); [discriminate|]. by intros [= <-].
  - destruct (time.skip value prefix) as [v bad].
    destruct bad; [discriminate|].
    destruct (time.parse_std c v f) as [[[f1 v1] rangeErr] err] eqn:Hstd.
    destruct (String.eqb rangeErr "") eqn:Hrange; simpl; [|discriminate].
    destruct err; [discriminate|].
    intros Hloop Hf. eapply IH; [exact Hloop|].
    eapply parse_std_clock; eauto.
Qed.

(** An accepted value is a [Date] with the hour and the minute in range. *)
Lemma Parse_ok_clock l value :
  snd (time.Parse l value) = None ->
  exists year month day hour min,
    fst (time.Parse l value) = time.Date year month day hour min
    /\ 0 <= hour < 24 /\ 0 <= min < 60.
Proof.
  unfold time.Parse.
  destruct (time.parse_loop _ _ _ _ _ _) as [f|e] eqn:Hloop; [|discriminate].
  apply parse_loop_clock in Hloop; [|simpl; lia].
  destruct (_ || _); [discriminate|]. intros _. simpl. eauto 10.
Qed.

Lemma absClock_Date year month day hour min :
  0 <= hour < 24 -> 0 <= min < 60 ->
  time.absClock (time.Date year month day hour min) = (hour, min).
Proof.
  intros Hh Hm. unfold time.absClock, time.Date. simpl time.abs.
  match goal with
  | |- context [?d * time.secondsPerDay + _ + _] => generalize d
  end.
  intros d. unfold time.secondsPerDay, time.secondsPerHour,
    time.secondsPerMinute.
  change (24 * (60 * 60)) with 86400. change (60 * 60) with 3600.
  replace ((d * 86400 + hour * 3600 + min * 60) mod 86400)
    with (hour * 3600 + min * 60)
    by (apply (Z.mod_unique_pos _ _ d); lia).
  replace ((hour * 3600 + min * 60) / 3600) with hour
    by (apply (Z.div_unique_pos _ _ _ (min * 60)); lia).
  f_equal. replace (hour * 3600 + min * 60 - hour * 3600) with (min * 60) by lia.
  apply Z.div_mul. lia.
Qed.

Lemma absWeekday_range t : 0 <= time.absWeekday t < 7.
Proof.
  unfold time.absWeekday, time.secondsPerWeek, time.secondsPerDay,
    time.secondsPerHour, time.secondsPerMinute, time.Monday.
  change (7 * (24 * (60 * 60))) with 604800.
  change (24 * (60 * 60)) with 86400.
  pose proof (Z.mod_pos_bound (time.abs t + 1 * 86400) 604800 ltac:(lia)).
  split; [apply Z.div_pos; lia | apply Z.div_lt_upper_bound; lia].
Qed.

Lemma Format_label t :
  time.Format t layout_label
  = string_to 3 (nth (Z.to_nat (time.absWeekday t)) time.longDayNames "")
      +:+ " " +:+ time.appendInt "" (fst (time.absClock t)) 2
      +:+ ":" +:+ time.appendInt "" (snd (time.absClock t)) 2.
Proof.
  unfold time.Format, layout_label. simpl time.chunks. simpl time.trailer.
  unfold time.format_loop, time.format_std.
  destruct (time.absDate t) as [[year month] day].
  destruct (time.absClock t) as [hour min]. simpl fst. simpl snd.
  rewrite (appendInt_app _ min), (appendInt_app _ hour).
  rewrite string_app_empty_r, !string_app_assoc. reflexivity.
Qed.

(** X4. For every accepted time string the label is a three-letter
    weekday name, a space, and a clock of two digits, a colon and two
    digits within 00:00 .. 23:59: nine bytes in all. *)
Theorem forecast_label_shape t temperature :
  parses t = true ->
  exists wd hour min,
    0 <= wd < 7 /\ 0 <= hour < 24 /\ 0 <= min < 60
    /\ Date (forecast_of t temperature)
       = nth (Z.to_nat wd) time.shortDayNames ""
           +:+ " " +:+ time.appendInt "" hour 2
           +:+ ":" +:+ time.appendInt "" min 2
    /\ String.length (Date (forecast_of t temperature)) = 9%nat.
Proof.
  intros Ht%parses_true.
  destruct (Parse_ok_clock _ _ Ht) as (year & month & day & hour & min & Hdate & Hh & Hm).
  pose proof (absWeekday_range (fst (time.Parse layout_hourly t))) as Hwd.
  destruct (weekday_name _ Hwd) as [Hname Hlen].
  exists (time.absWeekday (fst (time.Parse layout_hourly t))), hour, min.
  assert (Date (forecast_of t temperature)
          = nth (Z.to_nat (time.absWeekday (fst (time.Parse layout_hourly t))))
              time.shortDayNames ""
              +:+ " " +:+ time.appendInt "" hour 2
              +:+ ":" +:+ time.appendInt "" min 2) as Hlabel.
  { unfold forecast_of. cbn [Date]. rewrite Format_label, Hname.
    by rewrite Hdate, absClock_Date. }
  repeat (split; [done|]).
  rewrite Hlabel, !string_app_length, Hlen, !appendInt_2_length by lia.
  reflexivity.
Qed.

Lemma forecast_label_shape_witness :
  exists wd hour min,
    0 <= wd < 7 /\ 0 <= hour < 24 /\ 0 <= min < 60
    /\ Date (forecast_of "2024-03-11T14:00" F64_NaN)
       = nth (Z.to_nat wd) time.shortDayNames ""
           +:+ " " +:+ time.appendInt "" hour 2
           +:+ ":" +:+ time.appendInt "" min 2
    /\ String.length (Date (forecast_of "2024-03-11T14:00" F64_NaN)) = 9%nat.
Proof.
  apply (forecast_label_shape "2024-03-11T14:00" F64_NaN).
  vm_compute. reflexivity.
Defined.

Lemma round_half_even_near num den :
  0 < den ->
  2 * Z.abs (num - strconv.round_half_even num den * den) <= den.
Proof.
  intros Hden. unfold strconv.round_half_even.
  pose proof (Z.div_mod num den ltac:(lia)) as Hdiv.
  pose proof (Z.mod_pos_bound num den Hden) as Hmod.
  set (q := num / den) in *. set (r := num mod den) in *.
  assert (num - q * den = r) as Hq by lia.
  assert (num - (q + 1) * den = r - den) as Hq1 by lia.
  destruct (2 * r <? den) eqn:Hlt; [rewrite Hq; lia|].
  destruct (den <? 2 * r) eqn:Hgt; [rewrite Hq1; lia|].
  destruct (Z.even q); [rewrite Hq | rewrite Hq1]; lia.
Qed.

Lemma round_half_even_nonneg num den :
  0 <= num -> 0 < den -> 0 <= strconv.round_half_even num den.
Proof.
  intros Hnum Hden. unfold strconv.round_half_even.
  pose proof (Z.div_pos num den Hnum Hden).
  repeat destruct (_ <? _); try destruct (Z.even _); lia.
Qed.

Lemma decimal_digit_length d :
  0 <= d < 10 -> String.length (decimal d) = 1%nat.
Proof.
  intros Hd.
  apply Nat.eqb_eq,
    (below_forallb 10 (fun d => (String.length (decimal d) =? 1)%nat) d);
    [by vm_compute | lia].
Qed.

(** X5. The temperature label of a finite temperature is its sign, the
    tenths [q] printed with exactly one digit after the point, and the
    suffix ["°C"]; [q] is exact when the value is a whole number and
    otherwise the tenth nearest to it, at most one twentieth of a degree
    away. *)
Theorem temperature_label_finite sign mant exp :
  0 <= mant ->
  exists q,
    0 <= q
    /\ fmt.Sprintf_1f_degC (F64 sign mant exp)
       = ((if sign then "-" else "") +:+ decimal (q / 10) +:+ "."
            +:+ decimal (q mod 10)) +:+ "°C"
    /\ (0 <= exp -> q = mant * 2 ^ exp * 10)
    /\ (exp < 0 -> 2 * Z.abs (mant * 10 - q * 2 ^ (- exp)) <= 2 ^ (- exp)).
Proof.
  intros Hmant.
  set (q := if 0 <=? exp then mant * 2 ^ exp * 10
            else strconv.round_half_even (mant * 10) (2 ^ (- exp))).
  assert (0 <= q) as Hq.
  { unfold q. destruct (0 <=? exp) eqn:He.
    - apply Z.leb_le in He. pose proof (Z.pow_nonneg 2 exp ltac:(lia)). nia.
    - apply Z.leb_gt in He. apply round_half_even_nonneg; [lia|].
      apply Z.pow_pos_nonneg; lia. }
  exists q. split; [done|]. split; [|split].
  - unfold fmt.Sprintf_1f_degC, strconv.FormatFloat_f.
    change (10 ^ Z.of_nat 1) with 10. fold q.
    rewrite decimal_digit_length by (apply Z.mod_pos_bound; lia).
    reflexivity.
  - intros He. unfold q. by rewrite (proj2 (Z.leb_le 0 exp) He).
  - intros He. unfold q. rewrite (proj2 (Z.leb_gt 0 exp) He).
    apply round_half_even_near, Z.pow_pos_nonneg; lia.
Qed.

Lemma temperature_label_finite_witness :
  exists q,
    0 <= q
    /\ fmt.Sprintf_1f_degC (F64 true 37 (-1))
       = ((if true then "-" else "") +:+ decimal (q / 10) +:+ "."
            +:+ decimal (q mod 10)) +:+ "°C"
    /\ (0 <= -1 -> q = 37 * 2 ^ (-1) * 10)
    /\ (-1 < 0 -> 2 * Z.abs (37 * 10 - q * 2 ^ (- -1)) <= 2 ^ (- -1)).
Proof. apply (temperature_label_finite true 37 (-1)). lia. Defined.

(** ** The clock of the label is the clock of the time string *)

Lemma substring_all (s : string) : String.substring 0 (String.length s) s = s.
Proof.
  induction s as [|c s IH]; [reflexivity|].
  change (String c (String.substring 0 (String.length s) s) = String c s).
  by rewrite IH.
Qed.

Lemma string_from_1 c s : string_from 1 (String c s) = s.
Proof.
  unfold string_from. cbn [String.length Nat.sub String.substring].
  rewrite Nat.sub_0_r. apply substring_all.
Qed.

Lemma string_from_2 c1 c2 s : string_from 2 (String c1 (String c2 s)) = s.
Proof.
  unfold string_from. cbn [String.length Nat.sub String.substring].
  rewrite Nat.sub_0_r. apply substring_all.
Qed.

Lemma string_from_4 c1 c2 c3 c4 s :
  string_from 4 (String c1 (String c2 (String c3 (String c4 s)))) = s.
Proof.
  unfold string_from. cbn [String.length Nat.sub String.substring].
  rewrite Nat.sub_0_r. apply substring_all.
Qed.

(** The decimal digits among the bytes, and their values. *)
Lemma isDigit_head c s :
  time.isDigit (String c s) 0
  = (48 <=? Z.of_N (N_of_ascii c)) && (Z.of_N (N_of_ascii c) <=? 57).
Proof. reflexivity. Qed.

Lemma isDigit_next c s : time.isDigit (String c s) 1 = time.isDigit s 0.
Proof. reflexivity. Qed.

Lemma isDigit_empty n : time.isDigit "" n = false.
Proof. by destruct n. Qed.

Lemma digit_byte c :
  (48 <=? Z.of_N (N_of_ascii c)) && (Z.of_N (N_of_ascii c) <=? 57) = true ->
  0 <= Z.of_N (N_of_ascii c) - 48 < 10
  /\ c = ascii_of_N (Z.to_N (48 + (Z.of_N (N_of_ascii c) - 48))).
Proof.
  intros H. apply andb_prop in H as [H1%Z.leb_le H2%Z.leb_le].
  split; [lia|].
  replace (48 + (Z.of_N (N_of_ascii c) - 48)) with (Z.of_N (N_of_ascii c))
    by lia.
  by rewrite N2Z.id, ascii_N_embedding.
Qed.

Lemma appendInt_two_digits a b :
  0 <= a < 10 -> 0 <= b < 10 ->
  time.appendInt "" (a * 10 + b) 2
  = String (ascii_of_N (Z.to_N (48 + a)))
      (String (ascii_of_N (Z.to_N (48 + b))) "").
Proof.
  intros Ha Hb.
  apply String.eqb_eq,
    (below_forallb 10
       (fun b => String.eqb (time.appendInt "" (a * 10 + b) 2)
                   (String (ascii_of_N (Z.to_N (48 + a)))
                      (String (ascii_of_N (Z.to_N (48 + b))) ""))) b);
    [|lia].
  apply (below_forallb 10
           (fun a =>
              forallb
                (fun b => String.eqb (time.appendInt "" (a * 10 + b) 2)
                            (String (ascii_of_N (Z.to_N (48 + a)))
                               (String (ascii_of_N (Z.to_N (48 + b))) "")))
                (Z.of_nat <$> seq 0 10)) a); [by vm_compute | lia].
Qed.

(** [getnum] on success: two digits, or one digit when that is allowed
    and no digit follows. *)
Lemma getnum_inv s fixed n s' :
  time.getnum s fixed = (n, s', false) ->
  (exists c1 c2,
      s = String c1 (String c2 s')
      /\ time.isDigit (String c1 "") 0 = true
      /\ time.isDigit (String c2 "") 0 = true
      /\ n = (Z.of_N (N_of_ascii c1) - 48) * 10
             + (Z.of_N (N_of_ascii c2) - 48))
  \/ (fixed = false /\ time.isDigit s' 0 = false
      /\ exists c1,
           s = String c1 s'
           /\ time.isDigit (String c1 "") 0 = true
           /\ n = Z.of_N (N_of_ascii c1) - 48).
Proof.
  unfold time.getnum.
  destruct s as [|c1 s1]; [by rewrite isDigit_empty|].
  destruct (time.isDigit (String c1 s1) 0) eqn:H1; [|discriminate].
  cbn [negb]. rewrite isDigit_next.
  destruct (time.isDigit s1 0) eqn:H2; cbn [negb].
  - destruct s1 as [|c2 s2]; [by rewrite isDigit_empty in H2|].
    rewrite string_from_2. intros [= <- <-]. left. by exists c1, c2.
  - destruct fixed; [discriminate|].
    rewrite string_from_1. intros [= <- <-]. right.
    repeat split; [done|]. by exists c1.
Qed.

Lemma skip_byte c value value' :
  c <> " "%char ->
  time.skip value (String c "") = (value', false) ->
  value = String c value'.
Proof.
  intros Hc. unfold time.skip.
  assert (time.skip_from false value (String c "")
          = match value with
            | String v rest =>
                if Ascii.eqb v c then (rest, false) else (value, true)
            | EmptyString => (value, true)
            end) as ->.
  { destruct c as [[] [] [] [] [] [] [] []]; try reflexivity. by destruct Hc. }
  destruct value as [|v rest]; [discriminate|].
  destruct (Ascii.eqb v c) eqn:Hv; [|discriminate].
  apply Ascii.eqb_eq in Hv as ->. by intros [= <-].
Qed.

(** One turn of the loop that goes on to the next. *)
Lemma parse_loop_cons alayout avalue prefix c cs trailer value f f' :
  time.parse_loop alayout avalue ((prefix, c) :: cs) trailer value f = inl f' ->
  exists value1 f1 value2 rangeErrString,
    time.skip value prefix = (value1, false)
    /\ time.parse_std c value1 f = (f1, value2, rangeErrString, false)
    /\ String.eqb rangeErrString "" = true
    /\ time.parse_loop alayout avalue cs trailer value2 f1 = inl f'.
Proof.
  cbn [time.parse_loop].
  destruct (time.skip value prefix) as [value1 bad].
  destruct bad; [discriminate|].
  destruct (time.parse_std c value1 f) as [[[f1 value2] rangeErr] err]
    eqn:Hstd.
  destruct (String.eqb rangeErr "") eqn:Hrange; cbn [negb]; [|discriminate].
  destruct err; [discriminate|]. intros Hloop.
  exists value1, f1, value2, rangeErr. by repeat split.
Qed.

Lemma parse_loop_nil alayout avalue value f f' :
  time.parse_loop alayout avalue [] "" value f = inl f' ->
  value = "" /\ f' = f.
Proof.
  cbn [time.parse_loop]. change (time.skip value "") with (value, false).
  destruct value as [|c rest]; [by intros [= <-] | discriminate].
Qed.

(** An accepted time string, taken apart: four bytes of year, the month,
    the day, an hour of one or two digits and the minute, with the values
    [Parse] hands to [Date] for the hour and the minute. *)
Lemma Parse_hourly_inv t :
  snd (time.Parse layout_hourly t) = None ->
  exists y1 y2 y3 y4 m1 m2 d1 d2 hours i1 i2 year month day hour,
    t = String y1 (String y2 (String y3 (String y4 (String "-"
          (String m1 (String m2 (String "-" (String d1 (String d2
            (String "T" (hours +:+ String ":" (String i1 (String i2
               "")))))))))))))
    /\ fst (time.Parse layout_hourly t)
       = time.Date year month day hour
           ((Z.of_N (N_of_ascii i1) - 48) * 10 + (Z.of_N (N_of_ascii i2) - 48))
    /\ 0 <= hour < 24
    /\ 0 <= (Z.of_N (N_of_ascii i1) - 48) * 10 + (Z.of_N (N_of_ascii i2) - 48)
       < 60
    /\ time.isDigit (String i1 "") 0 = true
    /\ time.isDigit (String i2 "") 0 = true
    /\ ((exists h1 h2,
           hours = String h1 (String h2 "")
           /\ time.isDigit (String h1 "") 0 = true
           /\ time.isDigit (String h2 "") 0 = true
           /\ hour = (Z.of_N (N_of_ascii h1) - 48) * 10
                     + (Z.of_N (N_of_ascii h2) - 48))
        \/ (exists h1,
              hours = String h1 ""
              /\ time.isDigit (String h1 "") 0 = true
              /\ hour = Z.of_N (N_of_ascii h1) - 48)).
Proof.
  unfold time.Parse.
  destruct (time.parse_loop _ _ _ _ _ _) as [f|e] eqn:Hloop; [|discriminate].
  destruct (_ || _); [discriminate|]. intros _. cbn [fst].
  pose proof (parse_loop_clock _ _ _ _ _ _ _ Hloop ltac:(simpl; lia))
    as [Rhour Rmin].
  unfold layout_hourly in Hloop. cbn [time.chunks time.trailer] in Hloop.
  apply parse_loop_cons in Hloop
    as (v1 & f1 & v2 & r1 & Hskip1 & Hstd1 & _ & Hloop).
  change (time.skip t "") with (t, false) in Hskip1.
  injection Hskip1 as <-.
  cbv beta iota delta [time.parse_std] in Hstd1.
  destruct ((String.length t <? 4)%nat || negb (time.isDigit t 0)) eqn:Hlen;
    [discriminate|].
  apply orb_false_elim in Hlen as [Hlen _]. apply Nat.ltb_ge in Hlen.
  destruct t as [|y1 [|y2 [|y3 [|y4 rest]]]]; try (simpl in Hlen; lia).
  rewrite string_from_4 in Hstd1.
  destruct (time.atoi _) as [year err]. injection Hstd1 as <- <- _ _.
  apply parse_loop_cons in Hloop
    as (v1 & f2 & v2 & r2 & Hskip2 & Hstd2 & _ & Hloop).
  apply skip_byte in Hskip2 as ->; [|done].
  cbv beta iota delta [time.parse_std] in Hstd2.
  destruct (time.getnum v1 true) as [[month v3] err2] eqn:Hmonth.
  injection Hstd2 as <- <- _ ->.
  apply getnum_inv in Hmonth as [(m1 & m2 & -> & _)|[[=] _]].
  apply parse_loop_cons in Hloop
    as (v1 & f3 & v4 & r3 & Hskip3 & Hstd3 & _ & Hloop).
  apply skip_byte in Hskip3 as ->; [|done].
  cbv beta iota delta [time.parse_std] in Hstd3.
  destruct (time.getnum v1 true) as [[day v5] err3] eqn:Hday.
  injection Hstd3 as <- <- _ ->.
  apply getnum_inv in Hday as [(d1 & d2 & -> & _)|[[=] _]].
  apply parse_loop_cons in Hloop
    as (v1 & f4 & v6 & r4 & Hskip4 & Hstd4 & _ & Hloop).
  apply skip_byte in Hskip4 as ->; [|done].
  cbv beta iota delta [time.parse_std] in Hstd4.
  destruct (time.getnum v1 false) as [[hour v7] err4] eqn:Hhour.
  injection Hstd4 as <- <- _ ->.
  apply parse_loop_cons in Hloop
    as (v8 & f5 & v9 & r5 & Hskip5 & Hstd5 & _ & Hloop).
  apply skip_byte in Hskip5 as ->; [|done].
  cbv beta iota delta [time.parse_std] in Hstd5.
  destruct (time.getnum v8 true) as [[min v10] err5] eqn:Hmin.
  injection Hstd5 as <- <- _ ->.
  apply getnum_inv in Hmin as [(i1 & i2 & -> & Hi1 & Hi2 & ->)|[[=] _]].
  apply parse_loop_nil in Hloop as [-> ->].
  cbn [time.f_year time.f_month time.f_day time.f_hour time.f_min] in *.
  apply getnum_inv in Hhour
    as [(h1 & h2 & -> & Hh1 & Hh2 & ->)|(_ & _ & h1 & -> & Hh1 & ->)].
  - exists y1, y2, y3, y4, m1, m2, d1, d2, (String h1 (String h2 "")), i1, i2.
    eexists _, _, _, _. split; [reflexivity|]. split; [reflexivity|].
    do 4 (split; [done|]). left. by exists h1, h2.
  - exists y1, y2, y3, y4, m1, m2, d1, d2, (String h1 ""), i1, i2.
    eexists _, _, _, _. split; [reflexivity|]. split; [reflexivity|].
    do 4 (split; [done|]). right. by exists h1.
Qed.

(** X26. For an accepted time string of sixteen bytes, the canonical
    form, the label ends with the hour, the colon and the minute exactly
    as the time string writes them: its bytes from the fifth on are the
    last five bytes of the time string. *)
Theorem forecast_label_clock t temperature :
  parses t = true ->
  String.length t = 16%nat ->
  string_from 4 (Date (forecast_of t temperature)) = string_from 11 t.
Proof.
  intros Ht%parses_true Hlen.
  destruct (Parse_hourly_inv t Ht)
    as (y1 & y2 & y3 & y4 & m1 & m2 & d1 & d2 & hours & i1 & i2 & year & month
        & day & hour & Et & Hdate & Hhour & Hmin & Hi1 & Hi2 & Hhours).
  destruct Hhours as [(h1 & h2 & -> & Hh1 & Hh2 & ->)|(h1 & -> & _ & _)];
    [|by rewrite Et in Hlen].
  rewrite isDigit_head in Hi1, Hi2, Hh1, Hh2.
  destruct (digit_byte _ Hi1) as [Ri1 Ei1].
  destruct (digit_byte _ Hi2) as [Ri2 Ei2].
  destruct (digit_byte _ Hh1) as [Rh1 Eh1].
  destruct (digit_byte _ Hh2) as [Rh2 Eh2].
  pose proof (absWeekday_range (fst (time.Parse layout_hourly t))) as Hwd.
  destruct (weekday_name _ Hwd) as [Hshort Hname].
  unfold forecast_of. cbn [Date]. rewrite Format_label, Hshort.
  rewrite Hdate at 2 3. rewrite absClock_Date by lia. cbn [fst snd].
  rewrite !appendInt_two_digits by lia.
  rewrite <- Ei1, <- Ei2, <- Eh1, <- Eh2.
  destruct (nth _ time.shortDayNames "") as [|w1 [|w2 [|w3 [|w4 ws]]]];
    try discriminate Hname.
  rewrite Et. reflexivity.
Qed.

Lemma forecast_label_clock_witness :
  string_from 4 (Date (forecast_of "2024-03-11T14:05" F64_NaN))
  = string_from 11 "2024-03-11T14:05".
Proof.
  apply (forecast_label_clock "2024-03-11T14:05" F64_NaN).
  - vm_compute. reflexivity.
  - reflexivity.
Defined.

(** * Further properties of the location resolver *)

Section ResolverRuns.

Context {World : Type}.
Variable handle : forall X : Type, call X -> World -> X * World.

(** Every run of [getLatLong] has one of six shapes: a hit; a miss with a
    geocoder request that failed; with a response that did not decode;
    with no results; with a first result whose insert failed; with a first
    result that was inserted. *)
Lemma getLatLong_cases db name w :
  (exists latLong w',
      run handle (getLatLong db name) w
      = ([Event (store_lookup db name) (latLong, None)],
         Return (latLong, None), w'))
  \/ (exists latLong e0 resp e w',
        run handle (getLatLong db name) w
        = ([Event (store_lookup db name) (latLong, Some e0);
            Event (http_Get (geo_endpoint name)) (resp, Some e)],
           Return (None,
                   Some (fmt_Errorf_w "error making request to Geo API: " e)),
           w'))
  \/ (exists latLong e0 resp response e closed w',
        run handle (getLatLong db name) w
        = ([Event (store_lookup db name) (latLong, Some e0);
            Event (http_Get (geo_endpoint name)) (resp, None);
            Event (json_Decode (Body resp)) (response, Some e);
            Event (Body_Close (Body resp)) closed],
           Return (None, Some (fmt_Errorf_w "error decoding response: " e)),
           w'))
  \/ (exists latLong e0 resp closed w',
        run handle (getLatLong db name) w
        = ([Event (store_lookup db name) (latLong, Some e0);
            Event (http_Get (geo_endpoint name)) (resp, None);
            Event (json_Decode (Body resp)) ({| Results := [] |}, None);
            Event (Body_Close (Body resp)) closed],
           Return (None, Some (errors_New "no results found")), w'))
  \/ (exists latLong e0 resp coordinate others closed e w',
        run handle (getLatLong db name) w
        = ([Event (store_lookup db name) (latLong, Some e0);
            Event (http_Get (geo_endpoint name)) (resp, None);
            Event (json_Decode (Body resp))
              ({| Results := coordinate :: others |}, None);
            Event (Body_Close (Body resp)) closed;
            Event (store_insert db name coordinate) (Some e)],
           Return (None, Some e), w'))
  \/ (exists latLong e0 resp coordinate others closed w',
        run handle (getLatLong db name) w
        = ([Event (store_lookup db name) (latLong, Some e0);
            Event (http_Get (geo_endpoint name)) (resp, None);
            Event (json_Decode (Body resp))
              ({| Results := coordinate :: others |}, None);
            Event (Body_Close (Body resp)) closed;
            Event (store_insert db name coordinate) None],
           Return (Some coordinate, None), w')).
Proof.
  unfold getLatLong, fetchLatLong, insertCity, store_lookup, store_insert.
  simpl.
  destruct (handle _ (db_Get _ _ _) w) as [[latLong [e0|]] w1]; simpl;
    [|left; eauto].
  right.
  destruct (handle _ (http_Get _) w1) as [[resp [e|]] w2]; simpl;
    [left; eauto 10|].
  right.
  destruct (handle _ (json_Decode _) w2) as [[[results] [e|]] w3]; simpl.
  { destruct (handle _ (Body_Close _) w3) as [closed w4]; simpl.
    left. eauto 10. }
  right.
  destruct results as [|coordinate others]; simpl.
  { destruct (handle _ (Body_Close _) w3) as [closed w4]; simpl.
    left. eauto 10. }
  right.
  destruct (handle _ (Body_Close _) w3) as [closed w4]; simpl.
  destruct (handle _ (db_Exec _ _ _) w4) as [[e|] w5]; simpl;
    [left | right]; eauto 12.
Qed.

End ResolverRuns.

Section ResolverAlways.

Context {World : Type}.
Variable handle : forall X : Type, call X -> World -> X * World.

(** X6. In no world does [getLatLong] panic: the pointer it reads through
    and the index expression [Results[0]] are always in range. *)
Theorem getLatLong_never_panics db name w p :
  snd (fst (run handle (getLatLong db name) w)) <> Panic p.
Proof.
  destruct (getLatLong_cases handle db name w)
    as [(? & ? & ->)|[(? & ? & ? & ? & ? & ->)
       |[(? & ? & ? & ? & ? & ? & ? & ->)|[(? & ? & ? & ? & ? & ->)
       |[(? & ? & ? & ? & ? & ? & ? & ? & ->)
        |(? & ? & ? & ? & ? & ? & ? & ->)]]]]];
    discriminate.
Qed.

(** X7. In every world, the response bodies [getLatLong] closes are
    exactly those a successful [http.Get] opened, in the same order: no
    body is left open and none is closed twice. *)
Theorem getLatLong_closes_what_it_opens db name w :
  omap closed_body (fst (fst (run handle (getLatLong db name) w)))
  = omap opened_body (fst (fst (run handle (getLatLong db name) w))).
Proof.
  destruct (getLatLong_cases handle db name w)
    as [(? & ? & ->)|[(? & ? & ? & ? & ? & ->)
       |[(? & ? & ? & ? & ? & ? & ? & ->)|[(? & ? & ? & ? & ? & ->)
       |[(? & ? & ? & ? & ? & ? & ? & ? & ->)
        |(? & ? & ? & ? & ? & ? & ? & ->)]]]]];
    reflexivity.
Qed.

(** X8. In every world, [getLatLong] never returns a coordinate together
    with an error; and it returns neither (a nil pointer with a nil error)
    only when the store lookup itself answered so. *)
Theorem getLatLong_result_shape db name w trace latLong err w' :
  run handle (getLatLong db name) w = (trace, Return (latLong, err), w') ->
  (err <> None -> latLong = None)
  /\ (err = None -> latLong = None ->
      trace = [Event (store_lookup db name) (None, None)]).
Proof.
  destruct (getLatLong_cases handle db name w)
    as [(? & ? & ->)|[(? & ? & ? & ? & ? & ->)
       |[(? & ? & ? & ? & ? & ? & ? & ->)|[(? & ? & ? & ? & ? & ->)
       |[(? & ? & ? & ? & ? & ? & ? & ? & ->)
        |(? & ? & ? & ? & ? & ? & ? & ->)]]]]];
    intros [= <- <- <- <-]; split; try done.
  by intros _ ->.
Qed.

(** X9. In every world, if [getLatLong] writes to the store at all, the
    write is its last call, it is the only write, and it inserts under the
    queried name the first result of the geocoder's decoded response. *)
Theorem getLatLong_writes_first_result db name w :
  existsb is_store_write (fst (fst (run handle (getLatLong db name) w)))
  = true ->
  exists latLong e0 resp coordinate others closed answer,
    fst (fst (run handle (getLatLong db name) w))
    = [Event (store_lookup db name) (latLong, Some e0);
       Event (http_Get (geo_endpoint name)) (resp, None);
       Event (json_Decode (Body resp))
         ({| Results := coordinate :: others |}, None);
       Event (Body_Close (Body resp)) closed;
       Event (store_insert db name coordinate) answer].
Proof.
  destruct (getLatLong_cases handle db name w)
    as [(? & ? & ->)|[(? & ? & ? & ? & ? & ->)
       |[(? & ? & ? & ? & ? & ? & ? & ->)|[(? & ? & ? & ? & ? & ->)
       |[(? & ? & ? & ? & ? & ? & ? & ? & ->)
        |(? & ? & ? & ? & ? & ? & ? & ->)]]]]];
    simpl; try discriminate; intros _; eauto 10.
Qed.

(** X10. In every world, [getLatLong] starts with the store lookup and
    then calls the geocoder at most once and writes the store at most
    once: nothing is retried. *)
Theorem getLatLong_no_retries db name w :
  (exists answer,
      head (fst (fst (run handle (getLatLong db name) w)))
      = Some (Event (store_lookup db name) answer))
  /\ (length (filter (fun e => is_geocoder_call e = true)
                (fst (fst (run handle (getLatLong db name) w)))) <= 1)%nat
  /\ (length (filter (fun e => is_store_write e = true)
                (fst (fst (run handle (getLatLong db name) w)))) <= 1)%nat.
Proof.
  destruct (getLatLong_cases handle db name w)
    as [(? & ? & ->)|[(? & ? & ? & ? & ? & ->)
       |[(? & ? & ? & ? & ? & ? & ? & ->)|[(? & ? & ? & ? & ? & ->)
       |[(? & ? & ? & ? & ? & ? & ? & ? & ->)
        |(? & ? & ? & ? & ? & ? & ? & ->)]]]]];
    (split; [by eexists|]); split; vm_compute; lia.
Qed.

(** X11. A miss that is written back: when the store lookup fails, the
    geocoder answers with a first result [coordinate] and the insert
    succeeds, [getLatLong] returns [coordinate] without error, whatever
    other results the geocoder listed, and the insert carries the name,
    the latitude and the longitude, in this order. *)
Theorem getLatLong_write_back
    db name w latLong e0 w1 resp w2 coordinate others w3 closed w4 w5 :
  handle _ (store_lookup db name) w = ((latLong, Some e0), w1) ->
  handle _ (http_Get (geo_endpoint name)) w1 = ((resp, None), w2) ->
  handle _ (json_Decode (Body resp)) w2
  = (({| Results := coordinate :: others |}, None), w3) ->
  handle _ (Body_Close (Body resp)) w3 = (closed, w4) ->
  handle _ (db_Exec db "INSERT INTO cities (name, lat, long) VALUES ($1, $2, $3)"
              [arg_string name; arg_float64 (Latitude coordinate);
               arg_float64 (Longitude coordinate)]) w4 = (None, w5) ->
  run handle (getLatLong db name) w
  = ([Event (store_lookup db name) (latLong, Some e0);
      Event (http_Get (geo_endpoint name)) (resp, None);
      Event (json_Decode (Body resp))
        ({| Results := coordinate :: others |}, None);
      Event (Body_Close (Body resp)) closed;
      Event (store_insert db name coordinate) None],
     Return (Some coordinate, None), w5).
Proof.
  intros Hget Hhttp Hdecode Hclose Hinsert.
  unfold getLatLong, fetchLatLong, insertCity, store_lookup, store_insert in *.
  simpl. rewrite Hget. simpl. rewrite Hhttp. simpl. rewrite Hdecode. simpl.
  rewrite Hclose. simpl. by rewrite Hinsert.
Qed.

(** X12. When the store lookup fails and the request to the geocoder
    fails with [e], [getLatLong] returns [e] behind the prefix
    ["error making request to Geo API: "]; no body is decoded or closed
    and the store is not written. *)
Theorem getLatLong_request_error db name w latLong e0 w1 resp e w2 :
  handle _ (store_lookup db name) w = ((latLong, Some e0), w1) ->
  handle _ (http_Get (geo_endpoint name)) w1 = ((resp, Some e), w2) ->
  run handle (getLatLong db name) w
  = ([Event (store_lookup db name) (latLong, Some e0);
      Event (http_Get (geo_endpoint name)) (resp, Some e)],
     Return (None, Some (fmt_Errorf_w "error making request to Geo API: " e)),
     w2).
Proof.
  intros Hget Hhttp.
  unfold getLatLong, fetchLatLong, store_lookup in *.
  simpl. rewrite Hget. simpl. by rewrite Hhttp.
Qed.

(** X13. When the store lookup fails and the geocoder's response does not
    decode, failing with [e], [getLatLong] returns [e] behind the prefix
    ["error decoding response: "], whatever the decoder left in the
    response; the body is closed all the same and the store is not
    written. *)
Theorem getLatLong_decode_error
    db name w latLong e0 w1 resp w2 response e w3 closed w4 :
  handle _ (store_lookup db name) w = ((latLong, Some e0), w1) ->
  handle _ (http_Get (geo_endpoint name)) w1 = ((resp, None), w2) ->
  handle _ (json_Decode (Body resp)) w2 = ((response, Some e), w3) ->
  handle _ (Body_Close (Body resp)) w3 = (closed, w4) ->
  run handle (getLatLong db name) w
  = ([Event (store_lookup db name) (latLong, Some e0);
      Event (http_Get (geo_endpoint name)) (resp, None);
      Event (json_Decode (Body resp)) (response, Some e);
      Event (Body_Close (Body resp)) closed],
     Return (None, Some (fmt_Errorf_w "error decoding response: " e)), w4).
Proof.
  intros Hget Hhttp Hdecode Hclose.
  unfold getLatLong, fetchLatLong, store_lookup in *.
  simpl. rewrite Hget. simpl. rewrite Hhttp. simpl. rewrite Hdecode. simpl.
  by rewrite Hclose.
Qed.

End ResolverAlways.

(** Close an equation between closed terms by evaluating both sides. *)
Ltac by_evaluation :=
  match goal with
  | |- ?a = ?b => exact (@eq_refl _ b <: a = b)
  end.

Lemma getLatLong_result_shape_witness :
  (Some (errors_New "no results found") <> None -> @None LatLong = None)
  /\ (Some (errors_New "no results found") = None -> @None LatLong = None ->
      fst (fst (run double.handle (getLatLong double.db "Atlantis")
                  (double.fresh true true)))
      = [Event (store_lookup double.db "Atlantis") (None, None)]).
Proof.
  apply (getLatLong_result_shape double.handle double.db "Atlantis"
           (double.fresh true true) _ None
           (Some (errors_New "no results found"))
           (snd (run double.handle (getLatLong double.db "Atlantis")
                   (double.fresh true true)))).
  vm_compute. reflexivity.
Defined.

Lemma getLatLong_writes_first_result_witness :
  exists latLong e0 resp coordinate others closed answer,
    fst (fst (run double.handle (getLatLong double.db "Paris")
                (double.fresh true true)))
    = [Event (store_lookup double.db "Paris") (latLong, Some e0);
       Event (http_Get (geo_endpoint "Paris")) (resp, None);
       Event (json_Decode (Body resp))
         ({| Results := coordinate :: others |}, None);
       Event (Body_Close (Body resp)) closed;
       Event (store_insert double.db "Paris" coordinate) answer].
Proof.
  apply (getLatLong_writes_first_result double.handle double.db "Paris"
           (double.fresh true true)).
  by_evaluation.
Defined.

Lemma getLatLong_write_back_witness :
  snd (fst (run double.handle (getLatLong double.db "Paris")
              (double.fresh true true)))
  = Return (Some double.paris, None).
Proof.
  set (w := double.fresh true true).
  pose (w2 := snd (double.handle _ (http_Get (geo_endpoint "Paris")) w)).
  pose (w4 := snd (double.handle _ (Body_Close (ReadCloser 0)) w2)).
  pose (w5 := snd (double.handle _
                     (store_insert double.db "Paris" double.paris) w4)).
  rewrite (getLatLong_write_back double.handle double.db "Paris" w
             None double.sql_ErrNoRows w {| Body := ReadCloser 0 |} w2
             double.paris [] w2 None w4 w5).
  - reflexivity.
  - by_evaluation.
  - by_evaluation.
  - by_evaluation.
  - by_evaluation.
  - by_evaluation.
Defined.

Lemma getLatLong_request_error_witness :
  snd (fst (run double.handle (getLatLong double.db "Mars")
              (double.fresh true true)))
  = Return (None,
            Some (fmt_Errorf_w "error making request to Geo API: "
                    (library_error "net/http" "no such host"))).
Proof.
  set (w := double.fresh true true).
  rewrite (getLatLong_request_error double.handle double.db "Mars" w
             None double.sql_ErrNoRows w {| Body := ReadCloser 0 |}
             (library_error "net/http" "no such host") w).
  - reflexivity.
  - by_evaluation.
  - by_evaluation.
Defined.

Lemma getLatLong_decode_error_witness :
  snd (fst (run double.handle_garbled (getLatLong double.db "Paris")
              (double.fresh true true)))
  = Return (None,
            Some (fmt_Errorf_w "error decoding response: "
                    (library_error "encoding/json" "invalid character"))).
Proof.
  set (w := double.fresh true true).
  pose (w2 := snd (double.handle _ (http_Get (geo_endpoint "Paris")) w)).
  pose (w4 := snd (double.handle _ (Body_Close (ReadCloser 0)) w2)).
  rewrite (getLatLong_decode_error double.handle_garbled double.db "Paris" w
             None double.sql_ErrNoRows w {| Body := ReadCloser 0 |} w2
             {| Results := [] |}
             (library_error "encoding/json" "invalid character") w2 None w4).
  - reflexivity.
  - by_evaluation.
  - by_evaluation.
  - by_evaluation.
  - by_evaluation.
Defined.

(** * Properties of the geocoder endpoint *)

Lemma list_ascii_app (s1 s2 : string) :
  list_ascii_of_string (s1 +:+ s2)
  = (list_ascii_of_string s1 ++ list_ascii_of_string s2)%list.
Proof.
  induction s1 as [|c s1 IH]; [reflexivity|].
  change (c :: list_ascii_of_string (s1 +:+ s2)
          = c :: (list_ascii_of_string s1 ++ list_ascii_of_string s2)%list).
  by rewrite IH.
Qed.

Lemma string_app_inj_r (s1 s2 suffix : string) :
  s1 +:+ suffix = s2 +:+ suffix -> s1 = s2.
Proof.
  intros H. apply (f_equal list_ascii_of_string) in H.
  rewrite !list_ascii_app in H. apply app_inv_tail in H.
  rewrite <- (string_of_list_ascii_of_string s1),
    <- (string_of_list_ascii_of_string s2). by rewrite H.
Qed.

Lemma QueryEscape_cons a s :
  url.QueryEscape (String a s)
  = url.QueryEscape (String a "") +:+ url.QueryEscape s.
Proof.
  cbn [url.QueryEscape].
  destruct (url.shouldEscape _); [destruct (_ =? 32)|]; reflexivity.
Qed.

Lemma QueryEscape_byte_alphabet a :
  forallb url.escaped_byte
    (list_ascii_of_string (url.QueryEscape (String a ""))) = true.
Proof. destruct a as [[] [] [] [] [] [] [] []]; vm_compute; reflexivity. Qed.

Lemma unescape_QueryEscape_byte a s :
  url.unescape (url.QueryEscape (String a "") +:+ s)
  = String a (url.unescape s).
Proof. destruct a as [[] [] [] [] [] [] [] []]; reflexivity. Qed.

Lemma unescape_QueryEscape s : url.unescape (url.QueryEscape s) = s.
Proof.
  induction s as [|a s IH]; [reflexivity|].
  by rewrite QueryEscape_cons, unescape_QueryEscape_byte, IH.
Qed.

(** X14. Whatever the city name, its escaped form in the geocoder
    endpoint consists of letters, digits, [-], [_], [.], [~], [+] and [%]
    only: a name cannot add or end a query parameter. *)
Theorem QueryEscape_alphabet city :
  forallb url.escaped_byte (list_ascii_of_string (url.QueryEscape city))
  = true.
Proof.
  induction city as [|a city IH]; [reflexivity|].
  rewrite QueryEscape_cons, list_ascii_app, forallb_app, IH.
  by rewrite QueryEscape_byte_alphabet.
Qed.

(** X15. Two different city names never give the same geocoder endpoint:
    the escaping of the name can be undone. *)
Theorem geo_endpoint_injective city1 city2 :
  geo_endpoint city1 = geo_endpoint city2 -> city1 = city2.
Proof.
  unfold geo_endpoint. intros H.
  apply String.app_inj, string_app_inj_r in H.
  by rewrite <- (unescape_QueryEscape city1), H, unescape_QueryEscape.
Qed.

Lemma geo_endpoint_injective_witness : "Paris" = "Paris".
Proof. apply geo_endpoint_injective. reflexivity. Defined.

(** * Properties of the forecast request and of the handler *)

Section WebRuns.

Context {World : Type}.
Variable handle : forall X : Type, web_call X -> World -> X * World.

Lemma web_run_bind {A B : Type} (m : web A) (f : A -> web B) w :
  web_run handle (web_bind m f) w
  = let '(trace, r, w1) := web_run handle m w in
    match r with
    | Return a =>
        let '(trace2, r2, w2) := web_run handle (f a) w1 in
        ((trace ++ trace2)%list, r2, w2)
    | Panic p => (trace, Panic p, w1)
    end.
Proof.
  revert w. induction m as [a|p|X c k IH]; intros w; simpl.
  - by destruct (web_run handle (f a) w) as [[trace2 r2] w2].
  - reflexivity.
  - destruct (handle X c w) as [x w1]. rewrite IH.
    destruct (web_run handle (k x) w1) as [[trace r] w2].
    destruct r as [a|p]; [|reflexivity].
    by destruct (web_run handle (f a) w2) as [[trace2 r2] w3].
Qed.

Lemma web_run_lift {A : Type} (m : io A) w :
  web_run handle (lift m) w
  = let '(trace, r, w') := run (resolver_handle handle) m w in
    (lift_event <$> trace, r, w').
Proof.
  revert w. induction m as [a|p|X c k IH]; intros w; simpl; try reflexivity.
  unfold resolver_handle at 1.
  destruct (handle X (resolver c) w) as [x w1]. rewrite IH.
  by destruct (run (resolver_handle handle) (k x) w1) as [[trace r] w2].
Qed.

Lemma lifted_no_response (trace : list event) :
  filter (fun e => is_response e = true) (lift_event <$> trace) = [].
Proof.
  induction trace as [|[X c x] trace IH]; [reflexivity|].
  rewrite fmap_cons, filter_cons_False; [done|]. by destruct c.
Qed.

Lemma lifted_opened (trace : list event) :
  omap web_opened_body (lift_event <$> trace) = omap opened_body trace.
Proof.
  induction trace as [|[X c x] trace IH]; [reflexivity|].
  rewrite fmap_cons. cbn [omap list_omap]. rewrite <- IH. reflexivity.
Qed.

Lemma lifted_closed (trace : list event) :
  omap web_closed_body (lift_event <$> trace) = omap closed_body trace.
Proof.
  induction trace as [|[X c x] trace IH]; [reflexivity|].
  rewrite fmap_cons. cbn [omap list_omap]. rewrite <- IH. by destruct c.
Qed.

(** Every run of [getWeather] has one of three shapes: the request
    failed; the body could not be read; the body was read. *)
Lemma getWeather_cases latLong w :
  (exists resp e w',
      web_run handle (getWeather latLong) w
      = ([WebEvent (resolver (http_Get (weather_endpoint latLong)))
            (resp, Some e)],
         Return ("", Some (fmt_Errorf_w
                             "error making request to Weather API: " e)),
         w'))
  \/ (exists resp body e closed w',
        web_run handle (getWeather latLong) w
        = ([WebEvent (resolver (http_Get (weather_endpoint latLong)))
              (resp, None);
            WebEvent (io_ReadAll (Body resp)) (body, Some e);
            WebEvent (resolver (Body_Close (Body resp))) closed],
           Return ("", Some (fmt_Errorf_w "error reading response body: " e)),
           w'))
  \/ (exists resp body closed w',
        web_run handle (getWeather latLong) w
        = ([WebEvent (resolver (http_Get (weather_endpoint latLong)))
              (resp, None);
            WebEvent (io_ReadAll (Body resp)) (body, None);
            WebEvent (resolver (Body_Close (Body resp))) closed],
           Return (body, None), w')).
Proof.
  unfold getWeather. simpl.
  destruct (handle _ (resolver (http_Get _)) w) as [[resp [e|]] w1]; simpl;
    [left; eauto|].
  right.
  destruct (handle _ (io_ReadAll _) w1) as [[body [e|]] w2]; simpl;
    destruct (handle _ (resolver (Body_Close _)) w2) as [closed w3]; simpl;
    [left | right]; eauto 10.
Qed.

End WebRuns.

Section WebAlways.

Context {World : Type}.
Variable handle : forall X : Type, web_call X -> World -> X * World.
Variable json_Unmarshal : string -> WeatherResponse * option error.

(** X16. When the forecast request succeeds and its body is read to the
    end, [getWeather] returns the text of the body as it is, without
    error, and closes the body after reading it. *)
Theorem getWeather_returns_body latLong w resp w1 body w2 closed w3 :
  handle _ (resolver (http_Get (weather_endpoint latLong))) w
  = ((resp, None), w1) ->
  handle _ (io_ReadAll (Body resp)) w1 = ((body, None), w2) ->
  handle _ (resolver (Body_Close (Body resp))) w2 = (closed, w3) ->
  web_run handle (getWeather latLong) w
  = ([WebEvent (resolver (http_Get (weather_endpoint latLong))) (resp, None);
      WebEvent (io_ReadAll (Body resp)) (body, None);
      WebEvent (resolver (Body_Close (Body resp))) closed],
     Return (body, None), w3).
Proof.
  intros Hhttp Hread Hclose. unfold getWeather. simpl.
  rewrite Hhttp. simpl. rewrite Hread. simpl. by rewrite Hclose.
Qed.

(** X17. When reading the body of the forecast response fails with [e],
    [getWeather] drops what was read, returns the empty text with [e]
    behind the prefix ["error reading response body: "], and closes the
    body all the same. *)
Theorem getWeather_read_error latLong w resp w1 body e w2 closed w3 :
  handle _ (resolver (http_Get (weather_endpoint latLong))) w
  = ((resp, None), w1) ->
  handle _ (io_ReadAll (Body resp)) w1 = ((body, Some e), w2) ->
  handle _ (resolver (Body_Close (Body resp))) w2 = (closed, w3) ->
  web_run handle (getWeather latLong) w
  = ([WebEvent (resolver (http_Get (weather_endpoint latLong))) (resp, None);
      WebEvent (io_ReadAll (Body resp)) (body, Some e);
      WebEvent (resolver (Body_Close (Body resp))) closed],
     Return ("", Some (fmt_Errorf_w "error reading response body: " e)), w3).
Proof.
  intros Hhttp Hread Hclose. unfold getWeather. simpl.
  rewrite Hhttp. simpl. rewrite Hread. simpl. by rewrite Hclose.
Qed.

(** X18. In every world [getWeather] returns and does not panic, and
    whenever it returns an error the text next to it is empty. *)
Theorem getWeather_result_shape latLong w :
  exists text err,
    snd (fst (web_run handle (getWeather latLong) w)) = Return (text, err)
    /\ (err <> None -> text = "").
Proof.
  destruct (getWeather_cases handle latLong w)
    as [(? & ? & ? & ->)|[(? & ? & ? & ? & ? & ->)|(? & ? & ? & ? & ->)]];
    simpl; eauto.
  eexists _, None. by split.
Qed.

(** X19. In every world [getWeather] makes exactly one request, to the
    forecast endpoint of the coordinate, as its first call, and closes
    exactly the bodies that request opened. *)
Theorem getWeather_one_request latLong w :
  (exists answer,
      filter (fun e => is_request e = true)
        (fst (fst (web_run handle (getWeather latLong) w)))
      = [WebEvent (resolver (http_Get (weather_endpoint latLong))) answer]
      /\ head (fst (fst (web_run handle (getWeather latLong) w)))
         = Some (WebEvent (resolver (http_Get (weather_endpoint latLong)))
                   answer))
  /\ omap web_closed_body (fst (fst (web_run handle (getWeather latLong) w)))
     = omap web_opened_body (fst (fst (web_run handle (getWeather latLong) w))).
Proof.
  destruct (getWeather_cases handle latLong w)
    as [(? & ? & ? & ->)|[(? & ? & ? & ? & ? & ->)|(? & ? & ? & ? & ->)]];
    (split; [eexists; split; reflexivity | reflexivity]).
Qed.

(** The run of the handler, stage by stage. *)
Lemma GET_weather_run db w :
  web_run handle (GET_weather json_Unmarshal db) w
  = let '(city, w1) := handle _ (gin_Query "city") w in
    let '(trace1, r1, w2) :=
      run (resolver_handle handle) (getLatLong db city) w1 in
    let before := WebEvent (gin_Query "city") city :: (lift_event <$> trace1) in
    match r1 with
    | Panic p => (before, Panic p, w2)
    | Return (_, Some e) =>
        let '(u, w3) :=
          handle _ (gin_JSON StatusInternalServerError (H_error e)) w2 in
        ((before
            ++ [WebEvent (gin_JSON StatusInternalServerError (H_error e)) u])%list,
         Return u, w3)
    | Return (None, None) => (before, Panic nil_pointer_dereference, w2)
    | Return (Some coordinate, None) =>
        let '(trace2, r2, w3) := web_run handle (getWeather coordinate) w2 in
        match r2 with
        | Panic p => ((before ++ trace2)%list, Panic p, w3)
        | Return (_, Some e) =>
            let '(u, w4) :=
              handle _ (gin_JSON StatusInternalServerError (H_error e)) w3 in
            ((before ++ trace2
                ++ [WebEvent (gin_JSON StatusInternalServerError (H_error e))
                      u])%list,
             Return u, w4)
        | Return (weather, None) =>
            let '(u0, w4) := handle _ (fmt_Println weather) w3 in
            match extractWeatherData json_Unmarshal city weather with
            | Panic p =>
                ((before ++ trace2
                    ++ [WebEvent (fmt_Println weather) u0])%list,
                 Panic p, w4)
            | Return (_, Some e) =>
                let '(u, w5) :=
                  handle _ (gin_JSON StatusInternalServerError (H_error e)) w4 in
                ((before ++ trace2
                    ++ [WebEvent (fmt_Println weather) u0;
                        WebEvent
                          (gin_JSON StatusInternalServerError (H_error e)) u])%list,
                 Return u, w5)
            | Return (weatherDisplay, None) =>
                let '(u, w5) :=
                  handle _ (gin_HTML StatusOK "weather.html"
                              (Some weatherDisplay)) w4 in
                ((before ++ trace2
                    ++ [WebEvent (fmt_Println weather) u0;
                        WebEvent
                          (gin_HTML StatusOK "weather.html"
                             (Some weatherDisplay)) u])%list,
                 Return u, w5)
            end
        end
    end.
Proof.
  unfold GET_weather. cbn [web_perform web_bind web_run].
  destruct (handle _ (gin_Query "city") w) as [city w1].
  rewrite web_run_bind, web_run_lift.
  destruct (run (resolver_handle handle) (getLatLong db city) w1)
    as [[trace1 r1] w2].
  destruct r1 as [[latlong [e|]]|p]; cbn [web_run web_perform];
    [| |reflexivity].
  { destruct (handle _ (gin_JSON _ _) w2) as [u w3]. by destruct latlong. }
  destruct latlong as [coordinate|]; cbn [web_run];
    [|by rewrite app_nil_r].
  rewrite web_run_bind.
  destruct (web_run handle (getWeather coordinate) w2) as [[trace2 r2] w3].
  destruct r2 as [[weather [e|]]|p]; cbn [web_run web_perform web_bind];
    [| |reflexivity].
  { destruct (handle _ (gin_JSON _ _) w3) as [u w4]. reflexivity. }
  destruct (handle _ (fmt_Println weather) w3) as [u0 w4].
  destruct (extractWeatherData json_Unmarshal city weather)
    as [[weatherDisplay [e|]]|p]; cbn [web_run web_perform].
  - destruct (handle _ (gin_JSON _ _) w4) as [u w5]. reflexivity.
  - destruct (handle _ (gin_HTML _ _ _) w4) as [u w5]. reflexivity.
  - reflexivity.
Qed.

End WebAlways.

Section WebHandler.

Context {World : Type}.
Variable handle : forall X : Type, web_call X -> World -> X * World.
Variable json_Unmarshal : string -> WeatherResponse * option error.

Lemma getWeather_no_response latLong w :
  filter (fun e => is_response e = true)
    (fst (fst (web_run handle (getWeather latLong) w))) = [].
Proof.
  destruct (getWeather_cases handle latLong w)
    as [(? & ? & ? & ->)|[(? & ? & ? & ? & ? & ->)|(? & ? & ? & ? & ->)]];
    reflexivity.
Qed.

Lemma getWeather_bodies latLong w :
  omap web_closed_body (fst (fst (web_run handle (getWeather latLong) w)))
  = omap web_opened_body (fst (fst (web_run handle (getWeather latLong) w))).
Proof.
  destruct (getWeather_cases handle latLong w)
    as [(? & ? & ? & ->)|[(? & ? & ? & ? & ? & ->)|(? & ? & ? & ? & ->)]];
    reflexivity.
Qed.

Lemma getLatLong_bodies
    (h : forall X : Type, call X -> World -> X * World) db name w :
  omap closed_body (fst (fst (run h (getLatLong db name) w)))
  = omap opened_body (fst (fst (run h (getLatLong db name) w))).
Proof.
  destruct (getLatLong_cases h db name w)
    as [(? & ? & ->)|[(? & ? & ? & ? & ? & ->)
       |[(? & ? & ? & ? & ? & ? & ? & ->)|[(? & ? & ? & ? & ? & ->)
       |[(? & ? & ? & ? & ? & ? & ? & ? & ->)
        |(? & ? & ? & ? & ? & ? & ? & ->)]]]]];
    reflexivity.
Qed.

(** X20. When the resolver returns an error, the handler answers with
    status 500 and that error, and does nothing else: no forecast is
    requested and nothing is printed. *)
Theorem GET_weather_resolver_error db w city w1 trace1 latlong e w2 u w3 :
  handle _ (gin_Query "city") w = (city, w1) ->
  run (resolver_handle handle) (getLatLong db city) w1
  = (trace1, Return (latlong, Some e), w2) ->
  handle _ (gin_JSON StatusInternalServerError (H_error e)) w2 = (u, w3) ->
  web_run handle (GET_weather json_Unmarshal db) w
  = (((WebEvent (gin_Query "city") city :: (lift_event <$> trace1))
        ++ [WebEvent (gin_JSON StatusInternalServerError (H_error e)) u])%list,
     Return u, w3).
Proof.
  intros Hquery Hresolve Hjson.
  rewrite GET_weather_run, Hquery, Hresolve. cbn iota beta.
  rewrite Hjson. by destruct latlong.
Qed.

(** X21. When the resolver returns a coordinate, the forecast for that
    coordinate is fetched and [extractWeatherData] accepts it for the
    queried city, the handler prints the raw forecast and then renders
    ["weather.html"] with status 200 and the display. *)
Theorem GET_weather_ok
    db w city w1 trace1 coordinate w2 trace2 weather w3 u0 w4 display u w5 :
  handle _ (gin_Query "city") w = (city, w1) ->
  run (resolver_handle handle) (getLatLong db city) w1
  = (trace1, Return (Some coordinate, None), w2) ->
  web_run handle (getWeather coordinate) w2
  = (trace2, Return (weather, None), w3) ->
  handle _ (fmt_Println weather) w3 = (u0, w4) ->
  extractWeatherData json_Unmarshal city weather = Return (display, None) ->
  handle _ (gin_HTML StatusOK "weather.html" (Some display)) w4 = (u, w5) ->
  web_run handle (GET_weather json_Unmarshal db) w
  = (((WebEvent (gin_Query "city") city :: (lift_event <$> trace1))
        ++ trace2
        ++ [WebEvent (fmt_Println weather) u0;
            WebEvent (gin_HTML StatusOK "weather.html" (Some display)) u])%list,
     Return u, w5).
Proof.
  intros Hquery Hresolve Hfetch Hprint Hextract Hhtml.
  by rewrite GET_weather_run, Hquery, Hresolve, Hfetch, Hprint, Hextract, Hhtml.
Qed.

(** X22. When the resolver returns neither a coordinate nor an error, the
    handler reads through the nil pointer and panics; it writes no
    response of its own. *)
Theorem GET_weather_nil_coordinate db w city w1 trace1 w2 :
  handle _ (gin_Query "city") w = (city, w1) ->
  run (resolver_handle handle) (getLatLong db city) w1
  = (trace1, Return (None, None), w2) ->
  web_run handle (GET_weather json_Unmarshal db) w
  = (WebEvent (gin_Query "city") city :: (lift_event <$> trace1),
     Panic nil_pointer_dereference, w2).
Proof.
  intros Hquery Hresolve. by rewrite GET_weather_run, Hquery, Hresolve.
Qed.

(** X23. When [extractWeatherData] panics on the fetched forecast, the
    handler panics with it after having printed the forecast, and writes
    no response of its own. *)
Theorem GET_weather_transform_panic
    db w city w1 trace1 coordinate w2 trace2 weather w3 u0 w4 p :
  handle _ (gin_Query "city") w = (city, w1) ->
  run (resolver_handle handle) (getLatLong db city) w1
  = (trace1, Return (Some coordinate, None), w2) ->
  web_run handle (getWeather coordinate) w2
  = (trace2, Return (weather, None), w3) ->
  handle _ (fmt_Println weather) w3 = (u0, w4) ->
  extractWeatherData json_Unmarshal city weather = Panic p ->
  web_run handle (GET_weather json_Unmarshal db) w
  = (((WebEvent (gin_Query "city") city :: (lift_event <$> trace1))
        ++ trace2 ++ [WebEvent (fmt_Println weather) u0])%list,
     Panic p, w4).
Proof.
  intros Hquery Hresolve Hfetch Hprint Hextract.
  by rewrite GET_weather_run, Hquery, Hresolve, Hfetch, Hprint, Hextract.
Qed.

(** X24. In every world, a run of the handler that returns has written
    exactly one response, as its last call: either status 500 with an
    error, or status 200 with ["weather.html"] and a display whose [City]
    is the city of the query.  A run that panics has written none. *)
Theorem GET_weather_one_response db w :
  match snd (fst (web_run handle (GET_weather json_Unmarshal db) w)) with
  | Return _ =>
      exists before response,
        fst (fst (web_run handle (GET_weather json_Unmarshal db) w))
        = (before ++ [response])%list
        /\ filter (fun e => is_response e = true) before = []
        /\ ((exists e u,
               response
               = WebEvent (gin_JSON StatusInternalServerError (H_error e)) u)
            \/ (exists display u,
                  response
                  = WebEvent (gin_HTML StatusOK "weather.html" (Some display))
                      u
                  /\ head before
                     = Some (WebEvent (gin_Query "city") (City display))))
  | Panic _ =>
      filter (fun e => is_response e = true)
        (fst (fst (web_run handle (GET_weather json_Unmarshal db) w))) = []
  end.
Proof.
  rewrite GET_weather_run.
  destruct (handle _ (gin_Query "city") w) as [city w1].
  destruct (run (resolver_handle handle) (getLatLong db city) w1)
    as [[trace1 r1] w2].
  assert (filter (fun e => is_response e = true)
            (WebEvent (gin_Query "city") city :: (lift_event <$> trace1)) = [])
    as Hbefore.
  { rewrite filter_cons_False by done. apply lifted_no_response. }
  destruct r1 as [[[coordinate|] [e|]]|p]; try exact Hbefore.
  1, 3: destruct (handle _ (gin_JSON _ _) w2) as [u w3]; cbn [fst snd];
    eexists _, _; (split; [reflexivity|]); (split; [exact Hbefore|]);
    left; by eexists _, _.
  pose proof (getWeather_no_response coordinate w2) as Hfetch.
  destruct (web_run handle (getWeather coordinate) w2) as [[trace2 r2] w3].
  cbn [fst] in Hfetch.
  destruct r2 as [[weather [e|]]|p]; cbn [fst snd].
  - destruct (handle _ (gin_JSON _ _) w3) as [u w4]. cbn [fst snd].
    eexists _, _. split; [by rewrite app_assoc|].
    split; [by rewrite filter_app, Hbefore, Hfetch|].
    left. by eexists _, _.
  - destruct (handle _ (fmt_Println weather) w3) as [u0 w4].
    destruct (extractWeatherData json_Unmarshal city weather)
      as [[display [e|]]|p] eqn:Hextract.
    + destruct (handle _ (gin_JSON _ _) w4) as [u w5]. cbn [fst snd].
      exists ((WebEvent (gin_Query "city") city :: (lift_event <$> trace1))
                ++ trace2 ++ [WebEvent (fmt_Println weather) u0])%list.
      eexists. split; [by rewrite <- !app_assoc|].
      split; [by rewrite !filter_app, Hbefore, Hfetch|].
      left. by eexists _, _.
    + destruct (handle _ (gin_HTML _ _ _) w4) as [u w5]. cbn [fst snd].
      exists ((WebEvent (gin_Query "city") city :: (lift_event <$> trace1))
                ++ trace2 ++ [WebEvent (fmt_Println weather) u0])%list.
      eexists. split; [by rewrite <- !app_assoc|].
      split; [by rewrite !filter_app, Hbefore, Hfetch|].
      right. eexists _, _. split; [reflexivity|].
      unfold extractWeatherData in Hextract.
      destruct (json_Unmarshal weather) as [wr [err|]]; [discriminate|].
      by rewrite (range_city _ _ _ _ _ _ Hextract).
    + cbn [fst snd]. by rewrite !filter_app, Hbefore, Hfetch.
  - cbn [fst snd]. by rewrite filter_app, Hbefore, Hfetch.
Qed.

(** X25. In every world, the response bodies a run of the handler closes
    are exactly those its requests opened, in the same order, whether the
    run returns or panics in the handler itself. *)
Theorem GET_weather_closes_what_it_opens db w :
  omap web_closed_body
    (fst (fst (web_run handle (GET_weather json_Unmarshal db) w)))
  = omap web_opened_body
      (fst (fst (web_run handle (GET_weather json_Unmarshal db) w))).
Proof.
  rewrite GET_weather_run.
  destruct (handle _ (gin_Query "city") w) as [city w1].
  pose proof (getLatLong_bodies (resolver_handle handle) db city w1) as Hres.
  destruct (run (resolver_handle handle) (getLatLong db city) w1)
    as [[trace1 r1] w2].
  cbn [fst] in Hres.
  assert (omap web_closed_body
            (WebEvent (gin_Query "city") city :: (lift_event <$> trace1))
          = omap web_opened_body
              (WebEvent (gin_Query "city") city :: (lift_event <$> trace1)))
    as Hbefore.
  { cbn [omap list_omap web_closed_body web_opened_body].
    change (omap web_closed_body (lift_event <$> trace1)
            = omap web_opened_body (lift_event <$> trace1)).
    by rewrite lifted_closed, lifted_opened. }
  destruct r1 as [[[coordinate|] [e|]]|p]; try exact Hbefore.
  1, 3: destruct (handle _ (gin_JSON _ _) w2) as [u w3]; cbn [fst];
    rewrite !omap_app, Hbefore; reflexivity.
  pose proof (getWeather_bodies coordinate w2) as Hfetch.
  destruct (web_run handle (getWeather coordinate) w2) as [[trace2 r2] w3].
  cbn [fst] in Hfetch.
  destruct r2 as [[weather [e|]]|p]; cbn [fst].
  - destruct (handle _ (gin_JSON _ _) w3) as [u w4]. cbn [fst].
    rewrite !omap_app, Hbefore, Hfetch. reflexivity.
  - destruct (handle _ (fmt_Println weather) w3) as [u0 w4].
    destruct (extractWeatherData json_Unmarshal city weather)
      as [[display [e|]]|p].
    + destruct (handle _ (gin_JSON _ _) w4) as [u w5]. cbn [fst].
      rewrite !omap_app, Hbefore, Hfetch. reflexivity.
    + destruct (handle _ (gin_HTML _ _ _) w4) as [u w5]. cbn [fst].
      rewrite !omap_app, Hbefore, Hfetch. reflexivity.
    + cbn [fst]. rewrite !omap_app, Hbefore, Hfetch. reflexivity.
  - cbn [fst]. by rewrite !omap_app, Hbefore, Hfetch.
Qed.

End WebHandler.

Lemma getWeather_returns_body_witness :
  snd (fst (web_run double_web.handle (getWeather double.paris)
              (double_web.paris_request "good" false false)))
  = Return ("good", None).
Proof.
  set (w := double_web.paris_request "good" false false).
  pose (w1 := snd (double_web.handle _
                     (resolver (http_Get (weather_endpoint double.paris))) w)).
  pose (w3 := snd (double_web.handle _
                     (resolver (Body_Close (ReadCloser 0))) w1)).
  rewrite (getWeather_returns_body double_web.handle double.paris w
             {| Body := ReadCloser 0 |} w1 "good" w1 None w3).
  - reflexivity.
  - vm_compute. reflexivity.
  - vm_compute. reflexivity.
  - vm_compute. reflexivity.
Defined.

Lemma getWeather_read_error_witness :
  snd (fst (web_run double_web.handle (getWeather double.paris)
              (double_web.paris_request "good" false true)))
  = Return ("", Some (fmt_Errorf_w "error reading response body: "
                        (library_error "io" "unexpected EOF"))).
Proof.
  set (w := double_web.paris_request "good" false true).
  pose (w1 := snd (double_web.handle _
                     (resolver (http_Get (weather_endpoint double.paris))) w)).
  pose (w3 := snd (double_web.handle _
                     (resolver (Body_Close (ReadCloser 0))) w1)).
  rewrite (getWeather_read_error double_web.handle double.paris w
             {| Body := ReadCloser 0 |} w1 "go"
             (library_error "io" "unexpected EOF") w1 None w3).
  - reflexivity.
  - vm_compute. reflexivity.
  - vm_compute. reflexivity.
  - vm_compute. reflexivity.
Defined.

Lemma GET_weather_resolver_error_witness :
  snd (fst (web_run double_web.handle
              (GET_weather double_web.json_Unmarshal double.db)
              double_web.mars_request))
  = Return tt.
Proof.
  set (w := double_web.mars_request).
  pose (r1 := run (resolver_handle double_web.handle)
                (getLatLong double.db "Mars") w).
  pose (e := fmt_Errorf_w "error making request to Geo API: "
               (library_error "net/http" "no such host")).
  pose (w3 := snd (double_web.handle _
                     (gin_JSON StatusInternalServerError (H_error e))
                     (snd r1))).
  rewrite (GET_weather_resolver_error double_web.handle
             double_web.json_Unmarshal double.db w "Mars" w
             (fst (fst r1)) None e (snd r1) tt w3).
  - reflexivity.
  - vm_compute. reflexivity.
  - vm_compute. reflexivity.
  - vm_compute. reflexivity.
Defined.

Lemma GET_weather_ok_witness :
  snd (fst (web_run double_web.handle
              (GET_weather double_web.json_Unmarshal double.db)
              (double_web.paris_request "good" false false)))
  = Return tt.
Proof.
  set (w := double_web.paris_request "good" false false).
  pose (r1 := run (resolver_handle double_web.handle)
                (getLatLong double.db "Paris") w).
  pose (r2 := web_run double_web.handle (getWeather double.paris) (snd r1)).
  pose (w4 := snd (double_web.handle _ (fmt_Println "good") (snd r2))).
  pose (display := {| City := "Paris";
                      Forecasts := [{| Date := "Mon 14:00";
                                       Temperature := "18.5°C" |}] |}).
  pose (w5 := snd (double_web.handle _
                     (gin_HTML StatusOK "weather.html" (Some display)) w4)).
  rewrite (GET_weather_ok double_web.handle double_web.json_Unmarshal
             double.db w "Paris" w (fst (fst r1)) double.paris (snd r1)
             (fst (fst r2)) "good" (snd r2) tt w4 display tt w5).
  - reflexivity.
  - vm_compute. reflexivity.
  - vm_compute. reflexivity.
  - vm_compute. reflexivity.
  - vm_compute. reflexivity.
  - vm_compute. reflexivity.
  - vm_compute. reflexivity.
Defined.

Lemma GET_weather_nil_coordinate_witness :
  snd (fst (web_run double_web.handle
              (GET_weather double_web.json_Unmarshal double.db)
              (double_web.paris_request "good" true false)))
  = Panic nil_pointer_dereference.
Proof.
  set (w := double_web.paris_request "good" true false).
  pose (r1 := run (resolver_handle double_web.handle)
                (getLatLong double.db "Paris") w).
  rewrite (GET_weather_nil_coordinate double_web.handle
             double_web.json_Unmarshal double.db w "Paris" w
             (fst (fst r1)) (snd r1)).
  - reflexivity.
  - vm_compute. reflexivity.
  - vm_compute. reflexivity.
Defined.

Lemma GET_weather_transform_panic_witness :
  snd (fst (web_run double_web.handle
              (GET_weather double_web.json_Unmarshal double.db)
              (double_web.paris_request "short" false false)))
  = Panic (index_out_of_range 0 0).
Proof.
  set (w := double_web.paris_request "short" false false).
  pose (r1 := run (resolver_handle double_web.handle)
                (getLatLong double.db "Paris") w).
  pose (r2 := web_run double_web.handle (getWeather double.paris) (snd r1)).
  pose (w4 := snd (double_web.handle _ (fmt_Println "short") (snd r2))).
  rewrite (GET_weather_transform_panic double_web.handle
             double_web.json_Unmarshal double.db w "Paris" w (fst (fst r1))
             double.paris (snd r1) (fst (fst r2)) "short" (snd r2) tt w4
             (index_out_of_range 0 0)).
  - reflexivity.
  - vm_compute. reflexivity.
  - vm_compute. reflexivity.
  - vm_compute. reflexivity.
  - vm_compute. reflexivity.
  - vm_compute. reflexivity.
Defined.

Section WebErrors.

Context {World : Type}.
Variable handle : forall X : Type, web_call X -> World -> X * World.
Variable json_Unmarshal : string -> WeatherResponse * option error.

(** X27. When the forecast request fails with [e], [getWeather] returns
    the empty text with [e] behind the prefix
    ["error making request to Weather API: "]; nothing is read and nothing
    is closed. *)
Theorem getWeather_request_error latLong w resp e w1 :
  handle _ (resolver (http_Get (weather_endpoint latLong))) w
  = ((resp, Some e), w1) ->
  web_run handle (getWeather latLong) w
  = ([WebEvent (resolver (http_Get (weather_endpoint latLong)))
        (resp, Some e)],
     Return ("", Some (fmt_Errorf_w "error making request to Weather API: " e)),
     w1).
Proof. intros Hhttp. unfold getWeather. simpl. by rewrite Hhttp. Qed.

(** X28. When the resolver returns a coordinate and fetching the forecast
    fails, the handler answers with status 500 and that error; nothing is
    printed and the forecast is not transformed. *)
Theorem GET_weather_forecast_error
    db w city w1 trace1 coordinate w2 trace2 text e w3 u w4 :
  handle _ (gin_Query "city") w = (city, w1) ->
  run (resolver_handle handle) (getLatLong db city) w1
  = (trace1, Return (Some coordinate, None), w2) ->
  web_run handle (getWeather coordinate) w2
  = (trace2, Return (text, Some e), w3) ->
  handle _ (gin_JSON StatusInternalServerError (H_error e)) w3 = (u, w4) ->
  web_run handle (GET_weather json_Unmarshal db) w
  = (((WebEvent (gin_Query "city") city :: (lift_event <$> trace1))
        ++ trace2
        ++ [WebEvent (gin_JSON StatusInternalServerError (H_error e)) u])%list,
     Return u, w4).
Proof.
  intros Hquery Hresolve Hfetch Hjson.
  by rewrite GET_weather_run, Hquery, Hresolve, Hfetch, Hjson.
Qed.

(** X29. When the forecast is fetched and [extractWeatherData] returns an
    error for it, the handler, having printed the forecast, answers with
    status 500 and that error, and renders nothing. *)
Theorem GET_weather_transform_error
    db w city w1 trace1 coordinate w2 trace2 weather w3 u0 w4 display e u w5 :
  handle _ (gin_Query "city") w = (city, w1) ->
  run (resolver_handle handle) (getLatLong db city) w1
  = (trace1, Return (Some coordinate, None), w2) ->
  web_run handle (getWeather coordinate) w2
  = (trace2, Return (weather, None), w3) ->
  handle _ (fmt_Println weather) w3 = (u0, w4) ->
  extractWeatherData json_Unmarshal city weather = Return (display, Some e) ->
  handle _ (gin_JSON StatusInternalServerError (H_error e)) w4 = (u, w5) ->
  web_run handle (GET_weather json_Unmarshal db) w
  = (((WebEvent (gin_Query "city") city :: (lift_event <$> trace1))
        ++ trace2
        ++ [WebEvent (fmt_Println weather) u0;
            WebEvent (gin_JSON StatusInternalServerError (H_error e)) u])%list,
     Return u, w5).
Proof.
  intros Hquery Hresolve Hfetch Hprint Hextract Hjson.
  by rewrite GET_weather_run, Hquery, Hresolve, Hfetch, Hprint, Hextract, Hjson.
Qed.

End WebErrors.

Lemma getWeather_request_error_witness :
  snd (fst (web_run double_web.handle (getWeather double.paris)
              double_web.paris_offline))
  = Return ("", Some (fmt_Errorf_w "error making request to Weather API: "
                        (library_error "net/http" "no such host"))).
Proof.
  set (w := double_web.paris_offline).
  rewrite (getWeather_request_error double_web.handle double.paris w
             {| Body := ReadCloser 0 |}
             (library_error "net/http" "no such host") w).
  - reflexivity.
  - vm_compute. reflexivity.
Defined.

Lemma GET_weather_forecast_error_witness :
  snd (fst (web_run double_web.handle
              (GET_weather double_web.json_Unmarshal double.db)
              double_web.paris_offline))
  = Return tt.
Proof.
  set (w := double_web.paris_offline).
  pose (r1 := run (resolver_handle double_web.handle)
                (getLatLong double.db "Paris") w).
  pose (r2 := web_run double_web.handle (getWeather double.paris) (snd r1)).
  pose (e := fmt_Errorf_w "error making request to Weather API: "
               (library_error "net/http" "no such host")).
  pose (w4 := snd (double_web.handle _
                     (gin_JSON StatusInternalServerError (H_error e))
                     (snd r2))).
  rewrite (GET_weather_forecast_error double_web.handle
             double_web.json_Unmarshal double.db w "Paris" w (fst (fst r1))
             double.paris (snd r1) (fst (fst r2)) "" e (snd r2) tt w4).
  - reflexivity.
  - vm_compute. reflexivity.
  - vm_compute. reflexivity.
  - vm_compute. reflexivity.
  - vm_compute. reflexivity.
Defined.

Lemma GET_weather_transform_error_witness :
  snd (fst (web_run double_web.handle
              (GET_weather double_web.json_Unmarshal double.db)
              (double_web.paris_request "<html>" false false)))
  = Return tt.
Proof.
  set (w := double_web.paris_request "<html>" false false).
  pose (r1 := run (resolver_handle double_web.handle)
                (getLatLong double.db "Paris") w).
  pose (r2 := web_run double_web.handle (getWeather double.paris) (snd r1)).
  pose (w4 := snd (double_web.handle _ (fmt_Println "<html>") (snd r2))).
  pose (e := fmt_Errorf_w "error decoding weather response: "
               (library_error "encoding/json" "invalid character")).
  pose (w5 := snd (double_web.handle _
                     (gin_JSON StatusInternalServerError (H_error e)) w4)).
  rewrite (GET_weather_transform_error double_web.handle
             double_web.json_Unmarshal double.db w "Paris" w (fst (fst r1))
             double.paris (snd r1) (fst (fst r2)) "<html>" (snd r2) tt w4
             WeatherDisplay_zero e tt w5).
  - reflexivity.
  - vm_compute. reflexivity.
  - vm_compute. reflexivity.
  - vm_compute. reflexivity.
  - vm_compute. reflexivity.
  - vm_compute. reflexivity.
  - vm_compute. reflexivity.
Defined.

(** X30. Every accepted time string has fifteen or sixteen bytes: four for
    the year, a dash, two for the month, a dash, two for the day, a [T],
    one or two for the hour, a colon and two for the minute.  Seconds, a
    zone or any other suffix are refused. *)
Theorem parses_shape t :
  parses t = true ->
  (String.length t = 15%nat \/ String.length t = 16%nat)
  /\ String.get 4 t = Some "-"%char
  /\ String.get 7 t = Some "-"%char
  /\ String.get 10 t = Some "T"%char
  /\ String.get (String.length t - 3) t = Some ":"%char
  /\ time.isDigit t 0 = true
  /\ time.isDigit t (String.length t - 1) = true
  /\ time.isDigit t (String.length t - 2) = true
  /\ time.isDigit t 11 = true.
Proof.
  intros Ht%parses_true.
  destruct (Parse_hourly_inv t Ht)
    as (y1 & y2 & y3 & y4 & m1 & m2 & d1 & d2 & hours & i1 & i2 & year & month
        & day & hour & -> & Hdate & Hhour & Hmin & Hi1 & Hi2 & Hhours).
  assert (time.isDigit (String y1 "") 0 = true) as Hy1.
  { unfold time.Parse, layout_hourly in Ht.
    cbn [time.chunks time.trailer time.parse_loop] in Ht.
    change (time.skip ?v "") with (v, false) in Ht.
    cbv beta iota delta [time.parse_std] in Ht.
    rewrite isDigit_head in *.
    destruct ((48 <=? Z.of_N (N_of_ascii y1))
              && (Z.of_N (N_of_ascii y1) <=? 57)); [done|].
    rewrite orb_true_r in Ht. discriminate Ht. }
  rewrite isDigit_head in *.
  destruct Hhours as [(h1 & h2 & -> & Hh1 & Hh2 & _)|(h1 & -> & Hh1 & _)];
    rewrite isDigit_head in *; cbn; rewrite ?Hy1, ?Hi1, ?Hi2, ?Hh1;
    by repeat split; auto.
Qed.

Lemma parses_shape_witness :
  String.length "2024-03-11T4:05" = 15%nat
  \/ String.length "2024-03-11T4:05" = 16%nat.
Proof.
  apply (parses_shape "2024-03-11T4:05"). vm_compute. reflexivity.
Defined.
